(** * The infrastructure generator's web client, embedded in Rocq

    The development follows the TypeScript sources of the client:

    - [Text]            strings, the regular expressions of the sources and
                        the [String.prototype] functions they are used with;
    - [Js]              loosely typed values ([any]), exceptions;
    - [Api]             [src/services/api.ts];
    - [DiagramControls] [src/components/DiagramControls.tsx];
    - [Index]           [src/pages/Index.tsx];
    - [UseWebSocket]    [src/hooks/useWebSocket.ts];
    - [MutationEngine]  the engine of the backend, which the sources do not
                        hold, as the specification describes it.

    Definitions come first, the theorems follow in modules of the same names
    suffixed with [Facts]. *)

From Stdlib Require Import String Ascii ZArith Bool.
From stdpp Require Import base option list strings pretty gmap.
Open Scope string_scope.
Open Scope list_scope.

(** Appending to a text that starts with a known character computes. *)
#[global] Arguments String.append !_ _ / : simpl nomatch.

(* ===================================================================== *)
(** * Strings and patterns *)
(* ===================================================================== *)

Module Text.

(** A string is a sequence of 8-bit characters.  A character outside ASCII
    is carried as its UTF-8 bytes: the classes [\w], [-], [\[] and the
    double quote are ASCII, so every pattern below cuts such a text at the
    same places as the source does on UTF-16 code units.  The one exception
    is [\s], whose members outside ASCII (U+00A0, U+2028, ...) are not
    single characters here; it only occurs in the cleanup of the label. *)

Definition dquote : ascii := "034"%char.
Definition newline : ascii := "010"%char.

(** The text made of one double quote. *)
Definition q : string := String dquote "".

Definition code (c : ascii) : N := N_of_ascii c.

Definition between (lo hi : N) (c : ascii) : bool :=
  ((lo <=? code c) && (code c <=? hi))%N.

(** [\w]: [A-Za-z0-9_]. *)
Definition is_word (c : ascii) : bool :=
  between 65 90 c || between 97 122 c || between 48 57 c || (c =? "_")%char.

(** [[\w-]]. *)
Definition is_word_or_hyphen (c : ascii) : bool :=
  is_word c || (c =? "-")%char.

(** Any character but the double quote. *)
Definition not_dquote (c : ascii) : bool := negb (c =? dquote)%char.

(** [\s], ASCII part: tab, line feed, vertical tab, form feed, carriage
    return, space. *)
Definition is_space (c : ascii) : bool :=
  between 9 13 c || (c =? " ")%char.

Fixpoint all_chars (p : ascii -> bool) (s : string) : bool :=
  match s with
  | EmptyString => true
  | String c s' => p c && all_chars p s'
  end.

(** The last character of a text, if it has one, is outside [cls]. *)
Fixpoint ends_outside (cls : ascii -> bool) (s : string) : bool :=
  match s with
  | EmptyString => true
  | String c s' =>
      match s' with
      | EmptyString => negb (cls c)
      | String _ _ => ends_outside cls s'
      end
  end.

(** ** Patterns

    The regular expressions of the sources are sequences of literal
    characters and of greedy repetitions of a character class; a capture
    group spans consecutive items. *)

Inductive atom : Type :=
| Chr (c : ascii)               (* one literal character *)
| Many1 (cls : ascii -> bool)   (* [cls+], greedy *)
| Many0 (cls : ascii -> bool).  (* [cls*], greedy *)

Record regex : Type := {
  atoms : list atom;
  groups : list (nat * nat)  (* first item and number of items of each group *)
}.

(** A backtracking matcher, as the engine of the language runs a pattern:
    a repetition first takes as many characters as it can, and gives them
    back one at a time while the rest of the pattern fails.  The result is
    the text taken by each item. *)
Section Repeat.
Variable cls : ascii -> bool.
Variable k : string -> option (list string).

Fixpoint many1 (s : string) : option (string * list string) :=
  match s with
  | String a s' =>
      if cls a then
        match many1 s' with
        | Some (w, r) => Some (String a w, r)
        | None => option_map (fun r => (String a "", r)) (k s')
        end
      else None
  | EmptyString => None
  end.

Definition many0 (s : string) : option (string * list string) :=
  match many1 s with
  | Some wr => Some wr
  | None => option_map (fun r => ("", r)) (k s)
  end.
End Repeat.

Fixpoint match_here (p : list atom) (s : string) {struct p}
  : option (list string) :=
  match p with
  | [] => Some []
  | Chr c :: p' =>
      match s with
      | String a s' =>
          if (a =? c)%char
          then option_map (cons (String a "")) (match_here p' s')
          else None
      | EmptyString => None
      end
  | Many1 cls :: p' =>
      option_map (fun wr => fst wr :: snd wr) (many1 cls (match_here p') s)
  | Many0 cls :: p' =>
      option_map (fun wr => fst wr :: snd wr) (many0 cls (match_here p') s)
  end.

(** The leftmost position at which the pattern matches. *)
Fixpoint search (p : list atom) (s : string) : option (list string) :=
  match match_here p s with
  | Some pieces => Some pieces
  | None =>
      match s with
      | String _ s' => search p s'
      | EmptyString => None
      end
  end.

Definition group_text (pieces : list string) (g : nat * nat) : string :=
  String.concat "" (firstn (snd g) (skipn (fst g) pieces)).

(** [s.match(re)] for a pattern without the [g] flag: [null], or the whole
    match followed by the text of each group. *)
Definition String_match (s : string) (re : regex) : option (list string) :=
  option_map
    (fun pieces => String.concat "" pieces :: map (group_text pieces) (groups re))
    (search (atoms re) s).

(** [s.replace(re, repl)] for a pattern with the [g] flag and a replacement
    text without [$]: every match, from left to right, none overlapping.
    [skip] counts the characters of the current match still to drop. *)
Fixpoint replace_from (p : list atom) (repl : string) (skip : nat) (s : string)
  {struct s} : string :=
  match skip with
  | S n =>
      match s with
      | String _ s' => replace_from p repl n s'
      | EmptyString => ""
      end
  | O =>
      match match_here p s with
      | Some pieces =>
          match String.length (String.concat "" pieces) with
          | S n =>
              repl +:+ match s with
                       | String _ s' => replace_from p repl n s'
                       | EmptyString => ""
                       end
          | O =>
              repl +:+ match s with
                       | String c s' => String c (replace_from p repl 0 s')
                       | EmptyString => ""
                       end
          end
      | None =>
          match s with
          | String c s' => String c (replace_from p repl 0 s')
          | EmptyString => ""
          end
      end
  end.

Definition String_replace_all (s : string) (re : regex) (repl : string) : string :=
  replace_from (atoms re) repl 0 s.

(** [s.split(sep)] for a separator of one character. *)
Fixpoint String_split (s : string) (sep : ascii) : list string :=
  match s with
  | EmptyString => [""]
  | String c s' =>
      if (c =? sep)%char then "" :: String_split s' sep
      else match String_split s' sep with
           | h :: t => String c h :: t
           | [] => [String c ""]
           end
  end.

(** [s.startsWith(p)]. *)
Fixpoint startsWith (s p : string) : bool :=
  match p with
  | EmptyString => true
  | String a p' =>
      match s with
      | String b s' => (b =? a)%char && startsWith s' p'
      | EmptyString => false
      end
  end.

Fixpoint literal (s : string) : list atom :=
  match s with
  | EmptyString => []
  | String c s' => Chr c :: literal s'
  end.

End Text.

(* ===================================================================== *)
(** * Loosely typed values, exceptions and asynchronous requests *)
(* ===================================================================== *)

Module Js.

(** A value of type [any], as [JSON.parse] builds them or as an object
    literal of the sources does.  An object is a finite map of its own
    properties.  Numbers are integers: the client inspects no number, one
    only matters through its truth value and its decimal text. *)
#[warnings="-register-all"]
Inductive value : Type :=
| VUndefined
| VNull
| VBool (b : bool)
| VNum (n : Z)
| VStr (s : string)
| VArr (items : list value)
| VObj (fields : gmap string value).

(** The truth value of [v] in a condition, in [!v] and in [v || w]. *)
Definition truthy (v : value) : bool :=
  match v with
  | VUndefined | VNull => false
  | VBool b => b
  | VNum n => negb (n =? 0)%Z
  | VStr s => negb (s =? "")%string
  | VArr _ | VObj _ => true
  end.

(** [a || b]. *)
Definition or_else (a b : value) : value := if truthy a then a else b.

(** [v === s] for a string literal [s]. *)
Definition is_str (v : value) (s : string) : bool :=
  match v with
  | VStr s' => (s' =? s)%string
  | _ => false
  end.

(** The text of [v] in a template literal or as the message of [new
    Error(v)]. *)
Fixpoint to_string (v : value) : string :=
  match v with
  | VUndefined => "undefined"
  | VNull => "null"
  | VBool true => "true"
  | VBool false => "false"
  | VNum n => pretty n
  | VStr s => s
  | VArr items =>
      String.concat ","
        (map (fun x => match x with
                       | VUndefined | VNull => ""
                       | _ => to_string x
                       end) items)
  | VObj _ => "[object Object]"
  end.

(** What is thrown: [new Error(message)], or an error of the engine or of
    the browser ([TypeError] for a property of [null], a call of what is no
    function, a request that fails; [SyntaxError] for a body that is not
    JSON). *)
Inductive exn : Type :=
| Error (message : string)
| TypeError
| SyntaxError.

Inductive result (A : Type) : Type :=
| Ok (a : A)
| Throw (e : exn).
Arguments Ok {A} a.
Arguments Throw {A} e.

Definition result_bind {A B : Type} (r : result A) (f : A -> result B) : result B :=
  match r with
  | Ok a => f a
  | Throw e => Throw e
  end.

Fixpoint result_mapM {A B : Type} (f : A -> result B) (l : list A) : result (list B) :=
  match l with
  | [] => Ok []
  | x :: l' =>
      result_bind (f x) (fun y =>
      result_bind (result_mapM f l') (fun ys => Ok (y :: ys)))
  end.

(** [v.k] for a plain property name [k] (no member of a prototype, no
    index): a [TypeError] on [undefined] and [null], [undefined] where the
    property is missing. *)
Definition get (v : value) (k : string) : result value :=
  match v with
  | VUndefined | VNull => Throw TypeError
  | VObj fields => Ok (default VUndefined (fields !! k))
  | _ => Ok VUndefined
  end.

(** Reading a property of [v] for a log ([v.length]): only whether it
    throws matters. *)
Definition touch (v : value) : result unit :=
  match v with
  | VUndefined | VNull => Throw TypeError
  | _ => Ok tt
  end.

(** [try { body } catch (e) { handler(e) }] in a synchronous function. *)
Definition result_try_catch {A : Type} (body : result A)
  (handler : exn -> result A) : result A :=
  match body with
  | Ok a => Ok a
  | Throw e => handler e
  end.

(** The own enumerable properties that [{...v}] copies. *)
Definition spread (v : value) : gmap string value :=
  match v with
  | VObj fields => fields
  | VArr items => list_to_map (imap (fun i x => (pretty i, x)) items)
  | VStr s =>
      list_to_map
        (imap (fun i c => (pretty i, VStr (String c ""))) (list_ascii_of_string s))
  | _ => ∅
  end.

(** [v.map(f)], the items of the new array: only an array has the method. *)
Definition array_map (v : value) (f : value -> result value)
  : result (list value) :=
  match v with
  | VArr items => result_mapM f items
  | VUndefined | VNull | VBool _ | VNum _ | VStr _ | VObj _ => Throw TypeError
  end.

(** ** Requests

    [fetch(url, {method, headers, body})] and the [Response] it resolves
    to.  The body of a request is given as the value whose JSON text is
    sent; a response carries its text and, when that text is JSON, the
    value [response.json()] resolves to. *)
Record Request : Type := {
  url : string;
  method : string;
  headers : list (string * string);
  body : option value
}.

Record Response : Type := {
  ok : bool;
  statusText : string;
  text : string;
  json : option value
}.

(** An asynchronous function: it returns, throws, or awaits the answer of
    the network or reads the clock and goes on. *)
Inductive io (A : Type) : Type :=
| Ret (a : A)
| Raise (e : exn)
| Fetch (req : Request) (k : result Response -> io A)
| Clock (k : string -> io A).
Arguments Ret {A} a.
Arguments Raise {A} e.
Arguments Fetch {A} req k.
Arguments Clock {A} k.

Fixpoint io_bind {A B : Type} (m : io A) (f : A -> io B) : io B :=
  match m with
  | Ret a => f a
  | Raise e => Raise e
  | Fetch req k => Fetch req (fun r => io_bind (k r) f)
  | Clock k => Clock (fun t => io_bind (k t) f)
  end.

(** [try { body } catch (e) { handler(e) }]. *)
Fixpoint try_catch {A : Type} (body : io A) (handler : exn -> io A) : io A :=
  match body with
  | Ret a => Ret a
  | Raise e => handler e
  | Fetch req k => Fetch req (fun r => try_catch (k r) handler)
  | Clock k => Clock (fun t => try_catch (k t) handler)
  end.

Definition lift {A : Type} (r : result A) : io A :=
  match r with
  | Ok a => Ret a
  | Throw e => Raise e
  end.

(** [await fetch(...)]. *)
Definition await_fetch (req : Request) : io Response :=
  Fetch req lift.

(** [await response.json()]. *)
Definition await_json (response : Response) : io value :=
  match json response with
  | Some data => Ret data
  | None => Raise SyntaxError
  end.

(** A run against a network [net] at the time [now]: the requests sent, in
    order, and the outcome. *)
Fixpoint run {A : Type} (net : Request -> result Response) (now : string)
  (m : io A) : list Request * result A :=
  match m with
  | Ret a => ([], Ok a)
  | Raise e => ([], Throw e)
  | Fetch req k =>
      let '(sent, r) := run net now (k (net req)) in (req :: sent, r)
  | Clock k => run net now (k now)
  end.

#[global] Instance result_mbind : MBind result := fun A B f r => result_bind r f.
#[global] Instance result_mret : MRet result := fun A a => Ok a.
#[global] Instance io_mbind : MBind io := fun A B f m => io_bind m f.
#[global] Instance io_mret : MRet io := fun A a => Ret a.

End Js.

(* ===================================================================== *)
(** * [src/services/api.ts] *)
(* ===================================================================== *)

Module Api.
Import Js.

Record InfrastructureResponse : Type := {
  diagram : value;
  terraform : value;
  warnings : list value;
  corrections : value;   (* [undefined] where the function sets none *)
  modelId : value;
  model : value
}.

Inductive Action : Type := Add | Remove | Move.

(** The text of an action: ['add'], ['remove'], ['move']. *)
Definition action_name (a : Action) : string :=
  match a with
  | Add => "add"
  | Remove => "remove"
  | Move => "move"
  end.

Record DiagramEditEvent : Type := {
  action : Action;
  resourceType : string;
  resourceId : option string;
  targetSubnet : option string;
  properties : option (gmap string value)
}.

Inductive Health : Type := healthy | unhealthy.

Record HealthStatus : Type := {
  status : Health;
  timestamp : option string
}.

(** [!s] for an optional string: it is missing or empty. *)
Definition lacking (s : option string) : bool :=
  match s with
  | None => true
  | Some s' => (s' =? "")%string
  end.

(** The expression mapped over [data.security_warnings]:
    [{...w, severity: w.severity === 'HIGH' ? 'error'
                    : w.severity === 'MEDIUM' ? 'warning' : 'info'}]. *)
Definition map_severity (sev : value) : string :=
  if is_str sev "HIGH" then "error"
  else if is_str sev "MEDIUM" then "warning"
  else "info".

Definition map_warning (w : value) : result value :=
  let copied := spread w in
  sev ← get w "severity";
  Ok (VObj (<["severity" := VStr (map_severity sev)]> copied)).

(** [(data.security_warnings || []).map(...)]. *)
Definition mappedWarnings (data : value) : result (list value) :=
  sw ← get data "security_warnings";
  array_map (or_else sw (VArr [])) map_warning.

Definition json_headers : list (string * string) :=
  [("Content-Type", "application/json")].

(** The defaults of [editDiagram] for an [add] without properties. *)
Definition default_add_properties : gmap string value :=
  {[ "subnet_id" := VStr "subnet-public-1";
     "subnet_ids" := VArr [VStr "subnet-private-1"] ]}.

(** The model identifier and the code texts are declared [string] in the
    source; the page passes them from state that a response filled, so they
    are values here, and a text [t] is [VStr t]. *)
Section Client.
(** [import.meta.env.VITE_API_URL]. *)
Variable VITE_API_URL : value.

Definition API_BASE_URL : value :=
  or_else VITE_API_URL (VStr "http://localhost:8000").

Definition endpoint (path : string) : string :=
  to_string API_BASE_URL +:+ path.

Definition checkHealth : io HealthStatus :=
  try_catch
    (response ← await_fetch
       {| url := endpoint "/health"; method := "GET";
          headers := json_headers; body := None |};
     if ok response
     then Clock (fun now => Ret {| status := healthy; timestamp := Some now |})
     else Ret {| status := unhealthy; timestamp := None |})
    (fun error => Ret {| status := unhealthy; timestamp := None |}).

Definition generateFromText (text : string) : io InfrastructureResponse :=
  response ← await_fetch
    {| url := endpoint "/text"; method := "POST";
       headers := json_headers;
       body := Some (VObj {[ "text" := VStr text ]}) |};
  if negb (ok response)
  then Raise (Error ("Failed to generate infrastructure: "
                     +:+ statusText response))
  else
    data ← await_json response;
    _ ← lift (get data "model_id");
    mapped ← lift (mappedWarnings data);
    mermaid_diagram ← lift (get data "mermaid_diagram");
    terraform_code ← lift (get data "terraform_code");
    data_corrections ← lift (get data "corrections");
    model_id ← lift (get data "model_id");
    model_summary ← lift (get data "model_summary");
    Ret {| diagram := mermaid_diagram;
           terraform := terraform_code;
           warnings := mapped;
           corrections := or_else data_corrections (VArr []);
           modelId := model_id;
           model := model_summary |}.

(** The object [backendRequest] once every assignment of [editDiagram]
    has run, or the error thrown on the way. *)
Definition backendRequest (modelId : value) (event : DiagramEditEvent)
  : result (gmap string value) :=
  let operation := action_name (action event) +:+ "_resource" in
  let request : gmap string value :=
    {[ "current_model_id" := modelId;
       "operation" := VStr operation;
       "resource_type" := VStr (resourceType event) ]} in
  let request :=
    match action event with
    | Add =>
        <["properties" :=
            VObj (default default_add_properties (properties event))]> request
    | Remove | Move => request
    end in
  request ←
    match action event with
    | Remove | Move =>
        if lacking (resourceId event)
        then Throw (Error "Resource ID is required for remove/move operations")
        else Ok (<["resource_id" := VStr (default "" (resourceId event))]> request)
    | Add => Ok request
    end;
  match action event with
  | Move =>
      if lacking (targetSubnet event)
      then Throw (Error "Target subnet is required for move operation")
      else Ok (<["target_subnet_id" :=
                   VStr (default "" (targetSubnet event))]> request)
  | Add | Remove => Ok request
  end.

Definition editDiagram (modelId : value) (event : DiagramEditEvent)
  : io InfrastructureResponse :=
  request ← lift (backendRequest modelId event);
  response ← await_fetch
    {| url := endpoint "/edit/diagram"; method := "POST";
       headers := json_headers;
       body := Some (VObj request) |};
  if negb (ok response)
  then Raise (Error ("Failed to edit diagram: " +:+ statusText response
                     +:+ " - " +:+ text response))
  else
    data ← await_json response;
    success ← lift (get data "success");
    if negb (truthy success)
    then
      error ← lift (get data "error");
      Raise (Error (to_string (or_else error (VStr "Operation failed"))))
    else
      mapped ← lift (mappedWarnings data);
      mermaid_diagram ← lift (get data "mermaid_diagram");
      terraform_code ← lift (get data "terraform_code");
      model_id ← lift (get data "model_id");
      model_summary ← lift (get data "model_summary");
      Ret {| diagram := or_else mermaid_diagram (VStr "");
             terraform := or_else terraform_code (VStr "");
             warnings := mapped;
             corrections := VUndefined;
             modelId := model_id;
             model := model_summary |}.

Definition editTerraform (modelId originalCode modifiedCode : value)
  : io InfrastructureResponse :=
  response ← await_fetch
    {| url := endpoint "/edit/terraform"; method := "POST";
       headers := json_headers;
       body := Some (VObj {[ "current_model_id" := modelId;
                             "original_terraform" := originalCode;
                             "modified_terraform" := modifiedCode ]}) |};
  if negb (ok response)
  then Raise (Error ("Failed to update Terraform: " +:+ statusText response
                     +:+ " - " +:+ text response))
  else
    data ← await_json response;
    mapped ← lift (mappedWarnings data);
    mermaid_diagram ← lift (get data "mermaid_diagram");
    terraform_code ← lift (get data "terraform_code");
    model_id ← lift (get data "model_id");
    model_summary ← lift (get data "model_summary");
    Ret {| diagram := or_else mermaid_diagram (VStr "");
           terraform := or_else terraform_code (VStr "");
           warnings := mapped;
           corrections := VUndefined;
           modelId := model_id;
           model := model_summary |}.
End Client.

End Api.

(* ===================================================================== *)
(** * [src/components/DiagramControls.tsx] *)
(* ===================================================================== *)

Module DiagramControls.
Import Text Js Api.

Record Resource : Type := {
  id : string;
  type : string;
  label : string
}.

(** The pattern of a node line: an identifier, an opening bracket, and a
    label between double quotes; group 1 is the identifier ([\w+-[\w-]+]),
    group 2 the label (one or more characters other than the quote). *)
Definition node_pattern : regex :=
  {| atoms := [Many1 is_word; Chr "-"; Many1 is_word_or_hyphen;
               Chr "["; Chr dquote; Many1 not_dquote; Chr dquote];
     groups := [(0, 3); (5, 1)]%nat |}.

(** [/<br\/>/g]. *)
Definition br_pattern : regex :=
  {| atoms := literal "<br/>"; groups := [] |}.

(** [/ID:\s*/g]. *)
Definition id_tag_pattern : regex :=
  {| atoms := literal "ID:" ++ [Many0 is_space]; groups := [] |}.

Definition type_of_id (id : string) : string :=
  if startsWith id "ec2-" then "EC2"
  else if startsWith id "rds-" then "RDS"
  else if startsWith id "lb-" then "Load Balancer"
  else if startsWith id "s3-" then "S3"
  else if startsWith id "sg-" then "Security Group"
  else "unknown".

Definition clean_label (group2 : string) : string :=
  String_replace_all (String_replace_all group2 br_pattern " ") id_tag_pattern "".

(** The body of the loop over the lines: [resources.push(...)] on a match. *)
Definition extract_line (resources : list Resource) (line : string)
  : list Resource :=
  match String_match line node_pattern with
  | Some m =>
      let id := nth 1 m "" in
      let label := clean_label (nth 2 m "") in
      resources ++ [{| id := id; type := type_of_id id; label := label |}]
  | None => resources
  end.

Definition extractResourceIds (diagram : string) : list Resource :=
  if (diagram =? "")%string then []
  else foldl extract_line [] (String_split diagram newline).

(** The properties of the component; [onEdit] is given by the events the
    component hands to it. *)
Record Props : Type := {
  disabled : bool;
  currentDiagram : option string
}.

Record State : Type := {
  selectedResource : string;
  resourceId : string;
  targetSubnet : string;
  activeAction : option Action
}.

Definition initial : State :=
  {| selectedResource := "ec2"; resourceId := "";
     targetSubnet := "subnet-public-1"; activeAction := None |}.

Definition Action_eqb (a b : Action) : bool :=
  match a, b with
  | Add, Add | Remove, Remove | Move, Move => true
  | _, _ => false
  end.

(** [activeAction === action]. *)
Definition is_active (st : State) (a : Action) : bool :=
  match activeAction st with
  | Some b => Action_eqb b a
  | None => false
  end.

(** [extractResourceIds(currentDiagram || '')]. *)
Definition availableResources (props : Props) : list Resource :=
  extractResourceIds (default "" (currentDiagram props)).

Definition movable (r : Resource) : bool :=
  (type r =? "EC2")%string || (type r =? "RDS")%string.

Definition movableResources (props : Props) : list Resource :=
  List.filter movable (availableResources props).

(** [availableResources.find(r => r.id === resourceId)]. *)
Definition find_resource (props : Props) (resourceId : string) : option Resource :=
  List.find (fun r => (id r =? resourceId)%string) (availableResources props).

(** The effect that runs after a render: a resource identifier that the
    diagram no longer has is cleared, with the active action. *)
Definition reset_stale (props : Props) (st : State) : State :=
  if negb (resourceId st =? "")%string
     && negb (bool_decide (is_Some (find_resource props (resourceId st))))
  then {| selectedResource := selectedResource st; resourceId := "";
          targetSubnet := targetSubnet st; activeAction := None |}
  else st.

Definition getDefaultProperties (resourceType : string) : gmap string value :=
  if (resourceType =? "ec2")%string then
    {[ "subnet_id" := VStr "subnet-public-1";
       "instance_type" := VStr "t2.micro" ]}
  else if (resourceType =? "rds")%string then
    {[ "subnet_ids" := VArr [VStr "subnet-private-1"; VStr "subnet-private-2"];
       "engine" := VStr "postgres";
       "instance_class" := VStr "db.t3.micro" ]}
  else if (resourceType =? "elb")%string || (resourceType =? "load_balancer")%string then
    {[ "subnet_ids" := VArr [VStr "subnet-public-1"];
       "target_instance_ids" := VArr [] ]}
  else if (resourceType =? "s3")%string then ∅
  else if (resourceType =? "security_group")%string then
    {[ "vpc_id" := VStr "vpc-main" ]}
  else ∅.

(** The event built on a confirmation. *)
Definition edit_event (st : State) (action : Action) : DiagramEditEvent :=
  {| Api.action := action;
     resourceType := selectedResource st;
     Api.resourceId :=
       if (resourceId st =? "")%string then None else Some (resourceId st);
     Api.targetSubnet :=
       match action with
       | Move => Some (targetSubnet st)
       | Add | Remove => None
       end;
     properties :=
       match action with
       | Add => Some (getDefaultProperties (selectedResource st))
       | Remove | Move => None
       end |}.

Definition cleared (st : State) : State :=
  {| selectedResource := selectedResource st; resourceId := "";
     targetSubnet := targetSubnet st; activeAction := None |}.

(** A click on the button of [action]: the state after it and the events
    handed to [onEdit]. *)
Definition handleAction (props : Props) (st : State) (action : Action)
  : State * list DiagramEditEvent :=
  if is_active st action then
    if (match action with Remove | Move => true | Add => false end)
       && negb (resourceId st =? "")%string
       && negb (bool_decide (is_Some (find_resource props (resourceId st))))
    then (cleared st, [])
    else (cleared st, [edit_event st action])
  else
    ({| selectedResource := selectedResource st; resourceId := resourceId st;
        targetSubnet := targetSubnet st; activeAction := Some action |}, []).

End DiagramControls.

(* ===================================================================== *)
(** * [src/pages/Index.tsx] *)
(* ===================================================================== *)

Module Index.
Import Js.

Inductive SyncStatus : Type := synced | syncing | error.

(** The state of the page that the handlers below read or write.  What a
    response may fill is a value; the text of the editor is [VStr]. *)
Record State : Type := {
  diagram : value;
  terraform : value;
  originalTerraform : value;
  currentModelId : value;
  warnings : list value;
  corrections : value;
  isHealthy : bool;
  syncStatus : SyncStatus
}.

(** A call of a state setter.  A handler is a closure over the state of
    the render it was made in; the setters it calls take effect on the
    state of the page at that moment.  Notifications and logs are left
    out. *)
Inductive Update : Type :=
| setDiagram (v : value)
| setTerraform (v : value)
| setOriginalTerraform (v : value)
| setWarnings (l : list value)
| setCorrections (v : value)
| setCurrentModelId (v : value)
| setSyncStatus (s : SyncStatus).

Definition apply (st : State) (u : Update) : State :=
  match u with
  | setDiagram v =>
      {| diagram := v; terraform := terraform st;
         originalTerraform := originalTerraform st;
         currentModelId := currentModelId st; warnings := warnings st;
         corrections := corrections st; isHealthy := isHealthy st;
         syncStatus := syncStatus st |}
  | setTerraform v =>
      {| diagram := diagram st; terraform := v;
         originalTerraform := originalTerraform st;
         currentModelId := currentModelId st; warnings := warnings st;
         corrections := corrections st; isHealthy := isHealthy st;
         syncStatus := syncStatus st |}
  | setOriginalTerraform v =>
      {| diagram := diagram st; terraform := terraform st;
         originalTerraform := v;
         currentModelId := currentModelId st; warnings := warnings st;
         corrections := corrections st; isHealthy := isHealthy st;
         syncStatus := syncStatus st |}
  | setWarnings l =>
      {| diagram := diagram st; terraform := terraform st;
         originalTerraform := originalTerraform st;
         currentModelId := currentModelId st; warnings := l;
         corrections := corrections st; isHealthy := isHealthy st;
         syncStatus := syncStatus st |}
  | setCorrections v =>
      {| diagram := diagram st; terraform := terraform st;
         originalTerraform := originalTerraform st;
         currentModelId := currentModelId st; warnings := warnings st;
         corrections := v; isHealthy := isHealthy st;
         syncStatus := syncStatus st |}
  | setCurrentModelId v =>
      {| diagram := diagram st; terraform := terraform st;
         originalTerraform := originalTerraform st;
         currentModelId := v; warnings := warnings st;
         corrections := corrections st; isHealthy := isHealthy st;
         syncStatus := syncStatus st |}
  | setSyncStatus s =>
      {| diagram := diagram st; terraform := terraform st;
         originalTerraform := originalTerraform st;
         currentModelId := currentModelId st; warnings := warnings st;
         corrections := corrections st; isHealthy := isHealthy st;
         syncStatus := s |}
  end.

(** The state once the setters called have taken effect, in order. *)
Definition commit (st : State) (us : list Update) : State := foldl apply st us.

(** [options: { skipTerraformUpdate?: boolean } = {}]. *)
Record Options : Type := { skipTerraformUpdate : option bool }.

Definition no_options : Options := {| skipTerraformUpdate := None |}.

(** [updateInfrastructure], in a render whose state is [render]. *)
Definition updateInfrastructure (render : State)
  (response : Api.InfrastructureResponse) (options : Options) : list Update :=
  [setDiagram (Api.diagram response)]
  ++ (if negb (default false (skipTerraformUpdate options))
      then [setTerraform (Api.terraform response);
            setOriginalTerraform (Api.terraform response)]
      else [setOriginalTerraform (terraform render)])
  ++ [setWarnings (Api.warnings response);
      setCorrections (or_else (Api.corrections response) (VArr []))]
  ++ (if truthy (Api.modelId response)
      then [setCurrentModelId (Api.modelId response)]
      else []).

(** [handleTerraformChange]: the editor hands over the text typed. *)
Definition handleTerraformChange (render : State) (newCode : string)
  : list Update :=
  [setTerraform (VStr newCode)]
  ++ (if negb (is_str (terraform render) newCode)
      then [setSyncStatus syncing]
      else []).

Section Handlers.
Variable VITE_API_URL : value.

(** [handleApplyTerraform], in a render whose state is [render]: the
    setters it calls, in order. *)
Definition handleApplyTerraform (render : State) : io (list Update) :=
  if negb (truthy (currentModelId render)) then Ret []
  else
    try_catch
      (inner ←
         (if isHealthy render then
            _ ← lift (touch (originalTerraform render));
            _ ← lift (touch (terraform render));
            response ← Api.editTerraform VITE_API_URL
              (currentModelId render) (originalTerraform render)
              (terraform render);
            Ret (updateInfrastructure render response
                   {| skipTerraformUpdate := Some true |})
          else Ret []);
       Ret ([setSyncStatus syncing] ++ inner ++ [setSyncStatus synced]))
      (fun e => Ret [setSyncStatus syncing; setSyncStatus error]).

(** [handleDiagramEdit]. *)
Definition handleDiagramEdit (render : State) (event : Api.DiagramEditEvent)
  : io (list Update) :=
  if negb (truthy (currentModelId render)) then Ret []
  else
    try_catch
      (inner ←
         (if isHealthy render then
            response ← Api.editDiagram VITE_API_URL
              (currentModelId render) event;
            Ret (updateInfrastructure render response no_options)
          else Ret []);
       Ret ([setSyncStatus syncing] ++ inner ++ [setSyncStatus synced]))
      (fun e => Ret [setSyncStatus syncing; setSyncStatus error]).
End Handlers.

End Index.

(* ===================================================================== *)
(** * [src/hooks/useWebSocket.ts] *)
(* ===================================================================== *)

Module UseWebSocket.
Import Js.

Inductive ReadyState : Type := CONNECTING | OPEN | CLOSING | CLOSED.

(** The socket object: its state, and what [send] does with a text (it
    may throw). *)
Record WebSocket : Type := {
  readyState : ReadyState;
  send : string -> result unit
}.

Definition is_open (s : ReadyState) : bool :=
  match s with
  | OPEN => true
  | CONNECTING | CLOSING | CLOSED => false
  end.

Section Hook.
(** [JSON.stringify], which throws on a value it cannot write. *)
Variable JSON_stringify : value -> result string.

(** The state of the hook that [sendMessage] closes over. *)
Variable ws : option WebSocket.
Variable isConnected : bool.

(** The message [{ type, ...data }]: a [type] of [data] wins. *)
Definition message (type : string) (data : value) : value :=
  VObj (spread data ∪ {[ "type" := VStr type ]}).

(** [sendMessage(type, data)]: the texts that [ws.send] is called with,
    and how the call of [sendMessage] ends. *)
Definition sendMessage (type : string) (data : value)
  : list string * result unit :=
  match ws with
  | Some socket =>
      if isConnected && is_open (readyState socket) then
        (match JSON_stringify (message type data) with
         | Ok payload => [payload]
         | Throw _ => []
         end,
         result_try_catch
           (payload ← JSON_stringify (message type data);
            send socket payload)
           (fun error => Ok tt))
      else ([], Ok tt)
  | None => ([], Ok tt)
  end.
End Hook.

End UseWebSocket.

(* ===================================================================== *)
(** * The Mutation Engine, from the specification *)
(* ===================================================================== *)

Module MutationEngine.

Inductive ResourceType : Type :=
| Vpc | Subnet | Ec2Instance | RdsDatabase | LoadBalancer
| S3Bucket | SecurityGroup | NatGateway | FlowLog.

Inductive Visibility : Type := public | private.

(** Modelled from the spec: a resource of the graph (section 3), which
    lives in the backend and is not among the sources; of its attributes,
    the type tag, the visibility tag of a subnet and the containing
    parent. *)
Record Resource : Type := {
  type : ResourceType;
  visibility : option Visibility;
  parent : option string
}.

(** Modelled from the spec: the resource graph (section 3), not among the
    sources: resources by identifier, in the order they were added. *)
Definition ResourceGraph : Type := list (string * Resource).



(** Modelled from the spec: the graph's first subnet of a visibility, the
    default container of an [add] that names none (section 4.5); the
    engine is not among the sources. *)
Fixpoint first_subnet (g : ResourceGraph) (v : Visibility) : option string :=
  match g with
  | [] => None
  | (i, r) :: g' =>
      match type r, visibility r, v with
      | Subnet, Some public, public | Subnet, Some private, private => Some i
      | _, _, _ => first_subnet g' v
      end
  end.






End MutationEngine.

(* ===================================================================== *)
(** * [src/pages/Index.tsx], the other handlers *)
(* ===================================================================== *)

Module IndexHandlers.
Import Text Js Index.

(** The content shown when the backend is not available. *)
Definition DEMO_DIAGRAM : string :=
  "graph TB
    subgraph VPC[" +:+ q +:+ "VPC (10.0.0.0/16)" +:+ q +:+ "]
        subgraph PublicSubnet[" +:+ q +:+ "Public Subnet" +:+ q +:+ "]
            ALB[Application Load Balancer]
            NAT[NAT Gateway]
        end
        subgraph PrivateSubnet[" +:+ q +:+ "Private Subnet" +:+ q +:+ "]
            EC2_1[EC2: web-server-1]
            EC2_2[EC2: web-server-2]
        end
        subgraph DatabaseSubnet[" +:+ q +:+ "Database Subnet" +:+ q +:+ "]
            RDS[(RDS PostgreSQL)]
        end
    end
    
    Internet((Internet)) --> ALB
    ALB --> EC2_1
    ALB --> EC2_2
    EC2_1 --> RDS
    EC2_2 --> RDS
    PrivateSubnet --> NAT
    NAT --> Internet".

Definition DEMO_TERRAFORM : string :=
  "# AWS Provider Configuration
provider " +:+ q +:+ "aws" +:+ q +:+ " {
  region = " +:+ q +:+ "us-west-2" +:+ q +:+ "
}

# VPC Configuration
resource " +:+ q +:+ "aws_vpc" +:+ q +:+ " " +:+ q +:+ "main" +:+ q +:+ " {
  cidr_block           = " +:+ q +:+ "10.0.0.0/16" +:+ q +:+ "
  enable_dns_hostnames = true
  enable_dns_support   = true

  tags = {
    Name = " +:+ q +:+ "main-vpc" +:+ q +:+ "
  }
}

# Public Subnet
resource " +:+ q +:+ "aws_subnet" +:+ q +:+ " " +:+ q +:+ "public" +:+ q +:+ " {
  vpc_id                  = aws_vpc.main.id
  cidr_block              = " +:+ q +:+ "10.0.1.0/24" +:+ q +:+ "
  availability_zone       = " +:+ q +:+ "us-west-2a" +:+ q +:+ "
  map_public_ip_on_launch = true

  tags = {
    Name = " +:+ q +:+ "public-subnet" +:+ q +:+ "
  }
}

# Private Subnet
resource " +:+ q +:+ "aws_subnet" +:+ q +:+ " " +:+ q +:+ "private" +:+ q +:+ " {
  vpc_id            = aws_vpc.main.id
  cidr_block        = " +:+ q +:+ "10.0.2.0/24" +:+ q +:+ "
  availability_zone = " +:+ q +:+ "us-west-2a" +:+ q +:+ "

  tags = {
    Name = " +:+ q +:+ "private-subnet" +:+ q +:+ "
  }
}

# EC2 Instances
resource " +:+ q +:+ "aws_instance" +:+ q +:+ " " +:+ q +:+ "web" +:+ q +:+ " {
  count         = 2
  ami           = " +:+ q +:+ "ami-0c55b159cbfafe1f0" +:+ q +:+ "
  instance_type = " +:+ q +:+ "t3.micro" +:+ q +:+ "
  subnet_id     = aws_subnet.private.id

  tags = {
    Name = " +:+ q +:+ "web-server-${count.index + 1}" +:+ q +:+ "
  }
}

# RDS Instance
resource " +:+ q +:+ "aws_db_instance" +:+ q +:+ " " +:+ q +:+ "main" +:+ q +:+ " {
  identifier        = " +:+ q +:+ "main-database" +:+ q +:+ "
  engine            = " +:+ q +:+ "postgres" +:+ q +:+ "
  engine_version    = " +:+ q +:+ "14" +:+ q +:+ "
  instance_class    = " +:+ q +:+ "db.t3.micro" +:+ q +:+ "
  allocated_storage = 20
  
  db_subnet_group_name = aws_db_subnet_group.main.name
  vpc_security_group_ids = [aws_security_group.database.id]
  
  skip_final_snapshot = true
}".

Definition DEMO_WARNINGS : list value :=
  [VObj {[ "severity" := VStr "warning";
           "message" :=
             VStr "EC2 instances in private subnet have no outbound internet access";
           "resource" := VStr "aws_instance.web";
           "recommendation" :=
             VStr "Add a NAT Gateway to enable outbound internet access for updates and patches." ]};
   VObj {[ "severity" := VStr "info";
           "message" := VStr "Consider enabling Multi-AZ deployment for RDS";
           "resource" := VStr "aws_db_instance.main";
           "recommendation" :=
             VStr "Multi-AZ provides high availability and automatic failover for production workloads." ]}].

(** [!s.trim()]: the text is made of white space and line terminators
    only.  The characters outside ASCII are met as their UTF-8 bytes:
    U+00A0, U+1680, U+2000 to U+200A, U+2028, U+2029, U+202F, U+205F,
    U+3000 and U+FEFF. *)
Fixpoint blank (s : string) : bool :=
  match s with
  | EmptyString => true
  | String c s1 =>
      if is_space c then blank s1
      else
        match s1 with
        | String d s2 =>
            if ((code c =? 194) && (code d =? 160))%N then blank s2
            else
              match s2 with
              | String e s3 =>
                  if ((code c =? 225) && (code d =? 154) && (code e =? 128))%N
                     || ((code c =? 226) && (code d =? 128)
                         && (between 128 138 e || between 168 169 e
                             || (code e =? 175)))%N
                     || ((code c =? 226) && (code d =? 129) && (code e =? 159))%N
                     || ((code c =? 227) && (code d =? 128) && (code e =? 128))%N
                     || ((code c =? 239) && (code d =? 187) && (code e =? 191))%N
                  then blank s3
                  else false
              | EmptyString => false
              end
        | EmptyString => false
        end
  end.

(** The page with the state that [handleGenerate] and the health check
    read or write besides that of [Index.State]. *)
Record Page : Type := {
  state : State;
  inputText : string;
  isLoading : bool
}.

(** A call of a setter of the page. *)
Inductive PageUpdate : Type :=
| set (u : Update)
| setIsLoading (b : bool)
| setIsHealthy (b : bool)
| setInputText (s : string).

Definition with_health (st : State) (b : bool) : State :=
  {| diagram := diagram st; terraform := terraform st;
     originalTerraform := originalTerraform st;
     currentModelId := currentModelId st; warnings := warnings st;
     corrections := corrections st; isHealthy := b;
     syncStatus := syncStatus st |}.

Definition apply_page (p : Page) (u : PageUpdate) : Page :=
  match u with
  | set u' =>
      {| state := apply (state p) u'; inputText := inputText p;
         isLoading := isLoading p |}
  | setIsLoading b =>
      {| state := state p; inputText := inputText p; isLoading := b |}
  | setIsHealthy b =>
      {| state := with_health (state p) b; inputText := inputText p;
         isLoading := isLoading p |}
  | setInputText s =>
      {| state := state p; inputText := s; isLoading := isLoading p |}
  end.

Definition commit_page (p : Page) (us : list PageUpdate) : Page :=
  foldl apply_page p us.

Section Handlers.
Variable VITE_API_URL : value.

(** The health check that runs on mount and every 30 seconds:
    [setIsHealthy(status.status === 'healthy')]. *)
Definition checkBackendHealth : io (list PageUpdate) :=
  status ← Api.checkHealth VITE_API_URL;
  Ret [setIsHealthy
         match Api.status status with
         | Api.healthy => true
         | Api.unhealthy => false
         end].

(** [handleGenerate], in a render whose page is [render].  The pause of
    the demonstration mode only delays what follows it. *)
Definition handleGenerate (render : Page) : io (list PageUpdate) :=
  if blank (inputText render) then Ret []
  else
    us ← try_catch
      (inner ←
         (if isHealthy (state render) then
            response ← Api.generateFromText VITE_API_URL (inputText render);
            Ret (map set (updateInfrastructure (state render) response
                            no_options))
          else
            Ret [set (setDiagram (VStr DEMO_DIAGRAM));
                 set (setTerraform (VStr DEMO_TERRAFORM));
                 set (setWarnings DEMO_WARNINGS)]);
       Ret ([setIsLoading true; set (setSyncStatus syncing)]
            ++ inner ++ [set (setSyncStatus synced)]))
      (fun e => Ret [setIsLoading true; set (setSyncStatus syncing);
                     set (setSyncStatus error)]);
    Ret (us ++ [setIsLoading false]).
End Handlers.

(** What the page hands to the controls and to its buttons. *)

(** [disabled={!isHealthy || isLoading}], of the controls and of the
    button that applies the code. *)
Definition edits_disabled (p : Page) : bool :=
  negb (isHealthy (state p)) || isLoading p.

(** [disabled={isLoading || !inputText.trim()}], of the button that
    generates. *)
Definition generate_disabled (p : Page) : bool :=
  isLoading p || blank (inputText p).

End IndexHandlers.

(* ===================================================================== *)
(** * [src/hooks/useWebSocket.ts], the rest of the hook *)
(* ===================================================================== *)

Module WebSocketHook.
Import Text Js UseWebSocket.

Fixpoint drop_chars (n : nat) (s : string) : string :=
  match n, s with
  | S n', String _ s' => drop_chars n' s'
  | _, _ => s
  end.

(** [url.replace(/^https?:\/\//, '')]: the scheme is cut off at the very
    start of the text, nowhere else. *)
Definition strip_scheme (url : string) : string :=
  if startsWith url "https://" then drop_chars 8 url
  else if startsWith url "http://" then drop_chars 7 url
  else url.

(** The address of the socket for a model and, when there is one, a
    user. *)
Definition wsUrl (API_BASE_URL modelId : string) (userId : option string)
  : string :=
  let wsProtocol := if startsWith API_BASE_URL "https" then "wss" else "ws" in
  let wsBase := strip_scheme API_BASE_URL in
  wsProtocol +:+ "://" +:+ wsBase +:+ "/ws/" +:+ modelId
  +:+ (if Api.lacking userId then ""
       else "?user_id=" +:+ default "" userId).

(** The effect connects only for a model identifier: [if (!modelId)
    return]. *)
Definition connect_url (API_BASE_URL : string) (modelId userId : option string)
  : option string :=
  if Api.lacking modelId then None
  else Some (wsUrl API_BASE_URL (default "" modelId) userId).

(** The state of the hook. *)
Record HookState : Type := {
  ws : option WebSocket;
  isConnected : bool;
  activeUsers : value;
  lastMessage : value
}.

Definition initial : HookState :=
  {| ws := None; isConnected := false; activeUsers := VArr [];
     lastMessage := VNull |}.

(** The effect has made the socket [newWs], which is connecting. *)
Definition created (newWs : WebSocket) (st : HookState) : HookState :=
  {| ws := Some newWs; isConnected := isConnected st;
     activeUsers := activeUsers st; lastMessage := lastMessage st |}.

(** [newWs.onopen]. *)
Definition onopen (newWs : WebSocket) (st : HookState) : HookState :=
  {| ws := Some newWs; isConnected := true;
     activeUsers := activeUsers st; lastMessage := lastMessage st |}.

(** [newWs.onclose]. *)
Definition onclose (st : HookState) : HookState :=
  {| ws := None; isConnected := false;
     activeUsers := activeUsers st; lastMessage := lastMessage st |}.

(** [newWs.close()] on a socket that is open or connecting: it starts
    closing. *)
Definition close (socket : WebSocket) : WebSocket :=
  {| readyState := CLOSING; send := send socket |}.

(** The cleanup of the effect.  The socket that the state holds, if any, is
    the [newWs] of the effect. *)
Definition cleanup (st : HookState) : HookState :=
  {| ws :=
       (fun newWs =>
          match readyState newWs with
          | OPEN | CONNECTING => close newWs
          | CLOSING | CLOSED => newWs
          end) <$> ws st;
     isConnected := false;
     activeUsers := activeUsers st; lastMessage := lastMessage st |}.

Section Messages.
(** The handlers that the users of the hook register. *)
Variable Handler : Type.

(** [registerHandler(type, handler)]: the map of handlers after the call,
    and what the function it returns does to the map. *)
Definition registerHandler (type : string) (handler : Handler)
  (handlers : gmap string Handler) : gmap string Handler :=
  <[type := handler]> handlers.

Definition unregister (type : string) (handlers : gmap string Handler)
  : gmap string Handler :=
  delete type handlers.

(** [messageHandlers.current.get(message.type)]: the keys are texts. *)
Definition handler_for (handlers : gmap string Handler) (type : value)
  : option Handler :=
  match type with
  | VStr t => handlers !! t
  | _ => None
  end.

(** [newWs.onmessage], for the value [parsed] that [JSON.parse(event.data)]
    gives ([None] when it throws): the state after it and the calls of
    handlers.  What the parser, the reading of [message.type] or a handler
    throws is caught; it ends the handling there. *)
Definition onmessage (handlers : gmap string Handler) (parsed : option value)
  (st : HookState) : HookState * list (Handler * value) :=
  match parsed with
  | None => (st, [])
  | Some message =>
      let st1 :=
        {| ws := ws st; isConnected := isConnected st;
           activeUsers := activeUsers st; lastMessage := message |} in
      match get message "type" with
      | Throw _ => (st1, [])
      | Ok type =>
          let st2 :=
            if is_str type "connected" then
              {| ws := ws st1; isConnected := isConnected st1;
                 activeUsers :=
                   or_else
                     (match get message "active_users" with
                      | Ok users => users
                      | Throw _ => VUndefined
                      end)
                     (VArr []);
                 lastMessage := lastMessage st1 |}
            else st1 in
          (st2,
           match handler_for handlers type with
           | Some handler => [(handler, message)]
           | None => []
           end)
      end
  end.
End Messages.

Arguments registerHandler {Handler} type handler handlers.
Arguments unregister {Handler} type handlers.
Arguments handler_for {Handler} handlers type.
Arguments onmessage {Handler} handlers parsed st.

Section Senders.
Variable JSON_stringify : value -> result string.
Variable st : HookState.

Definition send_message (type : string) (data : value)
  : list string * result unit :=
  sendMessage JSON_stringify (ws st) (isConnected st) type data.

Definition sendEditEvent (event : value) : list string * result unit :=
  send_message "edit_event" (VObj {[ "event" := event ]}).

Definition sendPositionUpdate (resourceId : string) (position : value)
  : list string * result unit :=
  send_message "position_update"
    (VObj {[ "resource_id" := VStr resourceId; "position" := position ]}).

Definition sendCursorUpdate (position : value) : list string * result unit :=
  send_message "cursor_update" (VObj {[ "position" := position ]}).

Definition requestSync : list string * result unit :=
  send_message "sync_request" (VObj ∅).
End Senders.

End WebSocketHook.

(* ===================================================================== *)
(** * Facts about strings and patterns *)
(* ===================================================================== *)

Module TextFacts.
Import Text.

Lemma append_assoc (a b c : string) : (a +:+ b) +:+ c = a +:+ (b +:+ c).
Proof. induction a as [|x a IH]; simpl; [reflexivity | now rewrite IH]. Qed.

(** The first character of a text is outside the class [cls], or the text
    is empty: a repetition of [cls] stops there. *)
Definition stops (cls : ascii -> bool) (s : string) : Prop :=
  match s with
  | String c _ => cls c = false
  | EmptyString => True
  end.

Lemma many1_stops cls k s : stops cls s -> many1 cls k s = None.
Proof. destruct s as [|c s]; simpl; [reflexivity | now intros ->]. Qed.

(** A repetition takes a whole run of its class when the rest of the
    pattern accepts what follows the run. *)
Lemma many1_longest cls k run rest r :
  run <> "" ->
  all_chars cls run = true ->
  stops cls rest ->
  k rest = Some r ->
  many1 cls k (run +:+ rest) = Some (run, r).
Proof.
  intros Hne Hall Hstop Hk.
  induction run as [|c run IH]; [congruence |].
  simpl in Hall. apply andb_true_iff in Hall as [Hc Hall].
  simpl. rewrite Hc.
  destruct run as [|c' run'].
  - simpl. rewrite (many1_stops _ _ _ Hstop). now rewrite Hk.
  - now rewrite IH.
Qed.

Lemma match_here_many1_longest cls p run rest r :
  run <> "" ->
  all_chars cls run = true ->
  stops cls rest ->
  match_here p rest = Some r ->
  match_here (Many1 cls :: p) (run +:+ rest) = Some (run :: r).
Proof.
  intros Hne Hall Hstop Hr.
  cbn [match_here].
  now rewrite (many1_longest cls (match_here p) run rest r).
Qed.

Lemma match_here_chr c p s r :
  match_here p s = Some r ->
  match_here (Chr c :: p) (String c s) = Some (String c "" :: r).
Proof.
  intros Hr. cbn [match_here].
  rewrite Ascii.eqb_refl. now rewrite Hr.
Qed.

Lemma all_chars_app cls a b :
  all_chars cls (a +:+ b) = all_chars cls a && all_chars cls b.
Proof.
  induction a as [|c a IH]; simpl; [reflexivity |].
  now rewrite IH, andb_assoc.
Qed.

Lemma all_chars_impl (cls cls' : ascii -> bool) s :
  (forall c, cls c = true -> cls' c = true) ->
  all_chars cls s = true -> all_chars cls' s = true.
Proof.
  intros H. induction s as [|c s IH]; simpl; [reflexivity |].
  rewrite !andb_true_iff. intros [Hc Hs]. split; [now apply H | now apply IH].
Qed.

(** ** What a match is made of *)

(** The text that an item may take. *)
Definition piece_of (a : atom) (w : string) : Prop :=
  match a with
  | Chr c => w = String c ""
  | Many1 cls => w <> "" /\ all_chars cls w = true
  | Many0 cls => all_chars cls w = true
  end.

Lemma many1_sound cls k s w r :
  many1 cls k s = Some (w, r) ->
  exists rest,
    s = w +:+ rest /\ w <> "" /\ all_chars cls w = true /\ k rest = Some r.
Proof.
  revert w r. induction s as [|c s IH]; intros w r H; simpl in H;
    [discriminate |].
  destruct (cls c) eqn:Hc; [| discriminate].
  destruct (many1 cls k s) as [[w' r'] |] eqn:Hm.
  - injection H as <- <-.
    destruct (IH w' r' eq_refl) as (rest & -> & Hne & Hall & Hk).
    exists rest. simpl. rewrite Hc, Hall. repeat split; [discriminate | exact Hk].
  - destruct (k s) as [r' |] eqn:Hk; simpl in H; [| discriminate].
    injection H as <- <-. exists s. simpl. rewrite Hc.
    repeat split; [discriminate | exact Hk].
Qed.

(** A match at the start of [s] cuts a prefix of [s] into the texts of the
    items, one after the other. *)
Lemma match_here_sound p s pieces :
  match_here p s = Some pieces ->
  Forall2 piece_of p pieces
  /\ exists rest, s = foldr String.append rest pieces.
Proof.
  revert s pieces. induction p as [|a p IH]; intros s pieces H.
  - injection H as <-. split; [constructor | now exists s].
  - destruct a as [c | cls | cls]; cbn [match_here] in H.
    + destruct s as [|x s]; [discriminate |].
      destruct (Ascii.eqb_spec x c) as [-> | _]; [| discriminate].
      destruct (match_here p s) as [r |] eqn:Hr; [| discriminate].
      injection H as <-. destruct (IH s r Hr) as (Hall & rest & ->).
      split; [constructor; [reflexivity | exact Hall] | now exists rest].
    + destruct (many1 cls (match_here p) s) as [[w r] |] eqn:Hm;
        [| discriminate].
      injection H as <-.
      destruct (many1_sound _ _ _ _ _ Hm) as (rest & -> & Hne & Hw & Hr).
      destruct (IH rest r Hr) as (Hall & rest' & ->).
      split; [constructor; [now split | exact Hall] | now exists rest'].
    + unfold many0 in H.
      destruct (many1 cls (match_here p) s) as [[w r] |] eqn:Hm.
      * injection H as <-.
        destruct (many1_sound _ _ _ _ _ Hm) as (rest & -> & Hne & Hw & Hr).
        destruct (IH rest r Hr) as (Hall & rest' & ->).
        split; [constructor; [exact Hw | exact Hall] | now exists rest'].
      * destruct (match_here p s) as [r |] eqn:Hr; [| discriminate].
        injection H as <-. destruct (IH s r Hr) as (Hall & rest & ->).
        split; [constructor; [reflexivity | exact Hall] | now exists rest].
Qed.

(** A run of [cls] that a character [stop] outside [cls] follows does not
    start inside a text that has no [stop] and ends outside [cls]. *)
Lemma run_not_inside cls stop g t x y :
  cls stop = false ->
  all_chars cls g = true ->
  all_chars (fun c => negb (c =? stop)%char) x = true ->
  ends_outside cls x = true ->
  x <> "" ->
  g +:+ String stop t = x +:+ y ->
  False.
Proof.
  intros Hstop. revert x.
  induction g as [|c g IH]; intros x Hg Hx Hend Hne Heq.
  - destruct x as [|c' x]; [congruence |].
    simpl in Heq, Hx. injection Heq as <- _.
    now rewrite Ascii.eqb_refl in Hx.
  - destruct x as [|c' x]; [congruence |].
    simpl in Heq, Hx, Hg. injection Heq as <- Heq.
    apply andb_true_iff in Hg as [Hc Hg].
    apply andb_true_iff in Hx as [_ Hx].
    destruct x as [|c'' x].
    + simpl in Hend. now rewrite Hc in Hend.
    + apply (IH (String c'' x)); try assumption. discriminate.
Qed.

Lemma search_found p s pieces :
  match_here p s = Some pieces -> search p s = Some pieces.
Proof. intros H. destruct s; simpl in *; now rewrite H. Qed.

(** ** Lines *)

Definition no_newline (l : string) : bool :=
  all_chars (fun c => negb (c =? newline)%char) l.

Lemma String_split_line l :
  no_newline l = true -> String_split l newline = [l].
Proof.
  unfold no_newline. induction l as [|c l IH]; simpl; [reflexivity |].
  rewrite andb_true_iff, negb_true_iff. intros [-> Hl]. now rewrite IH.
Qed.

Lemma String_split_first l rest :
  no_newline l = true ->
  String_split (l +:+ String newline rest) newline
  = l :: String_split rest newline.
Proof.
  unfold no_newline. induction l as [|c l IH]; simpl.
  - reflexivity.
  - rewrite andb_true_iff, negb_true_iff. intros [-> Hl]. now rewrite IH.
Qed.

(** The lines of a text are the texts that line feeds join into it. *)
Lemma String_split_concat (lines : list string) :
  lines <> [] ->
  Forall (fun l => no_newline l = true) lines ->
  String_split (String.concat (String newline "") lines) newline = lines.
Proof.
  induction lines as [|l lines IH]; intros Hne Hall; [congruence |].
  inversion Hall as [| ? ? Hl Hlines]; subst.
  destruct lines as [|l' lines].
  - simpl. now apply String_split_line.
  - change (String.concat (String newline "") (l :: l' :: lines))
      with (l +:+ String newline
              (String.concat (String newline "") (l' :: lines))).
    rewrite String_split_first by assumption.
    now rewrite IH.
Qed.

End TextFacts.

(* ===================================================================== *)
(** * Facts about the diagram controls *)
(* ===================================================================== *)

Module DiagramControlsFacts.
Import Text Js Api DiagramControls TextFacts.

(** The items of the node pattern on a line that starts with a node. *)
Lemma node_pattern_at_node (word suffix lab rest : string) :
  word <> "" -> all_chars is_word word = true ->
  suffix <> "" -> all_chars is_word_or_hyphen suffix = true ->
  lab <> "" -> all_chars not_dquote lab = true ->
  match_here (atoms node_pattern)
    (word +:+ "-" +:+ suffix +:+ "[" +:+ q +:+ lab +:+ q +:+ rest)
  = Some [word; "-"; suffix; "["; q; lab; q].
Proof.
  intros Hw Hword Hs Hsuffix Hl Hlab.
  unfold node_pattern, atoms.
  apply match_here_many1_longest; [assumption | assumption | reflexivity |].
  apply match_here_chr.
  apply match_here_many1_longest; [assumption | assumption | reflexivity |].
  apply match_here_chr.
  apply match_here_chr.
  apply match_here_many1_longest; [assumption | assumption | reflexivity |].
  apply match_here_chr.
  reflexivity.
Qed.

(** No node starts before the identifier when the text before it has no
    opening bracket and does not end on a character of an identifier. *)
Lemma no_node_inside (x y : string) :
  all_chars (fun c => negb (c =? "[")%char) x = true ->
  ends_outside is_word_or_hyphen x = true ->
  x <> "" ->
  match_here (atoms node_pattern) (x +:+ y) = None.
Proof.
  intros Hx Hend Hne.
  destruct (match_here (atoms node_pattern) (x +:+ y)) as [pieces |] eqn:Hm;
    [exfalso | reflexivity].
  destruct (match_here_sound _ _ _ Hm) as (Hall & rest & Heq).
  unfold node_pattern, atoms in Hall.
  apply Forall2_cons_inv_l in Hall as (w1 & k1 & (_ & Hw1) & Hall & ->).
  apply Forall2_cons_inv_l in Hall as (w2 & k2 & -> & Hall & ->).
  apply Forall2_cons_inv_l in Hall as (w3 & k3 & (_ & Hw3) & Hall & ->).
  apply Forall2_cons_inv_l in Hall as (w4 & k4 & -> & Hall & ->).
  apply Forall2_cons_inv_l in Hall as (w5 & k5 & -> & Hall & ->).
  apply Forall2_cons_inv_l in Hall as (w6 & k6 & _ & Hall & ->).
  apply Forall2_cons_inv_l in Hall as (w7 & k7 & -> & Hall & ->).
  apply Forall2_nil_inv_l in Hall as ->.
  simpl in Heq, Hw1, Hw3.
  apply (run_not_inside is_word_or_hyphen "[" (w1 +:+ "-" +:+ w3)
           (String dquote (w6 +:+ String dquote rest)) x y);
    try assumption; try reflexivity.
  - rewrite !all_chars_app. simpl. rewrite Hw3, andb_true_r.
    eapply all_chars_impl; [| exact Hw1].
    intros c Hc. unfold is_word_or_hyphen. now rewrite Hc.
  - rewrite Heq, !append_assoc. reflexivity.
Qed.

Lemma search_past (pre s : string) :
  all_chars (fun c => negb (c =? "[")%char) pre = true ->
  ends_outside is_word_or_hyphen pre = true ->
  search (atoms node_pattern) (pre +:+ s) = search (atoms node_pattern) s.
Proof.
  induction pre as [|c pre IH]; intros Hpre Hend; [reflexivity |].
  change (String c pre +:+ s) with (String c (pre +:+ s)).
  cbn [search].
  change (String c (pre +:+ s)) with (String c pre +:+ s).
  rewrite no_node_inside by (assumption || discriminate).
  simpl in Hpre. apply andb_true_iff in Hpre as [_ Hpre].
  apply IH; [exact Hpre |].
  destruct pre; [reflexivity | exact Hend].
Qed.

Lemma String_match_node (before word suffix lab rest : string) :
  all_chars (fun c => negb (c =? "[")%char) before = true ->
  ends_outside is_word_or_hyphen before = true ->
  word <> "" -> all_chars is_word word = true ->
  suffix <> "" -> all_chars is_word_or_hyphen suffix = true ->
  lab <> "" -> all_chars not_dquote lab = true ->
  String_match
    (before +:+ (word +:+ "-" +:+ suffix) +:+ "[" +:+ q +:+ lab +:+ q +:+ rest)
    node_pattern
  = Some [word +:+ "-" +:+ suffix +:+ "[" +:+ q +:+ lab +:+ q;
          word +:+ "-" +:+ suffix; lab].
Proof.
  intros Hb Hend Hw Hword Hs Hsuffix Hl Hlab.
  unfold String_match.
  rewrite !append_assoc.
  rewrite search_past by assumption.
  erewrite search_found
    by (apply (node_pattern_at_node word suffix lab rest); assumption).
  reflexivity.
Qed.

Lemma extract_line_keeps resources line r :
  r ∈ resources -> r ∈ extract_line resources line.
Proof.
  intros H. unfold extract_line.
  destruct (String_match line node_pattern); [| assumption].
  apply elem_of_app. now left.
Qed.

Lemma foldl_extract_keeps lines resources r :
  r ∈ resources -> r ∈ foldl extract_line resources lines.
Proof.
  revert resources. induction lines as [|l lines IH]; intros resources H.
  - assumption.
  - simpl. apply IH. now apply extract_line_keeps.
Qed.

Lemma foldl_extract_line lines resources line m :
  line ∈ lines ->
  String_match line node_pattern = Some m ->
  {| id := nth 1 m ""; type := type_of_id (nth 1 m "");
     label := clean_label (nth 2 m "") |}
    ∈ foldl extract_line resources lines.
Proof.
  revert resources.
  induction lines as [|l lines IH]; intros resources Hin Hm.
  - now apply elem_of_nil in Hin.
  - apply elem_of_cons in Hin as [<- | Hin].
    + simpl. apply foldl_extract_keeps.
      unfold extract_line. rewrite Hm.
      apply elem_of_app. right. apply list_elem_of_singleton. reflexivity.
    + simpl. now apply IH.
Qed.

Lemma find_resource_none props rid :
  (forall r, r ∈ availableResources props -> id r <> rid) ->
  find_resource props rid = None.
Proof.
  unfold find_resource. intros H.
  induction (availableResources props) as [|r l IH]; [reflexivity |].
  simpl. destruct (String.eqb_spec (id r) rid) as [Heq | Hne].
  - exfalso. apply (H r); [apply elem_of_cons; now left | assumption].
  - apply IH. intros r' Hr'. apply H. apply elem_of_cons. now right.
Qed.

Lemma type_of_id_EC2 i : type_of_id i = "EC2" <-> startsWith i "ec2-" = true.
Proof.
  unfold type_of_id. split.
  - repeat (destruct (startsWith i _); try discriminate); intros _; reflexivity.
  - now intros ->.
Qed.

Lemma startsWith_ec2_rds i :
  startsWith i "ec2-" = true -> startsWith i "rds-" = true -> False.
Proof.
  destruct i as [|c i]; simpl; [discriminate |].
  destruct (Ascii.eqb_spec c "e") as [-> | ?]; [| discriminate].
  intros _. discriminate.
Qed.

Lemma type_of_id_RDS i : type_of_id i = "RDS" <-> startsWith i "rds-" = true.
Proof.
  unfold type_of_id. split.
  - repeat (destruct (startsWith i _); try discriminate); intros _; reflexivity.
  - intros H. destruct (startsWith i "ec2-") eqn:E.
    + exfalso. eapply startsWith_ec2_rds; eassumption.
    + now rewrite H.
Qed.

(** Every extracted resource has the type that its identifier gives. *)
Lemma extract_line_type resources line :
  Forall (fun r => type r = type_of_id (id r)) resources ->
  Forall (fun r => type r = type_of_id (id r)) (extract_line resources line).
Proof.
  intros H. unfold extract_line.
  destruct (String_match line node_pattern); [| assumption].
  apply Forall_app. split; [assumption |].
  now constructor.
Qed.

Lemma extractResourceIds_type diagram :
  Forall (fun r => type r = type_of_id (id r)) (extractResourceIds diagram).
Proof.
  unfold extractResourceIds. destruct (diagram =? "")%string; [constructor |].
  generalize (String_split diagram newline).
  assert (Forall (fun r => type r = type_of_id (id r)) []) as H by constructor.
  revert H. generalize (@nil Resource).
  intros acc H lines. revert acc H.
  induction lines as [|l lines IH]; intros acc H; simpl; [assumption |].
  apply IH. now apply extract_line_type.
Qed.

Lemma extractResourceIds_nonempty diagram line :
  line ∈ String_split diagram newline -> line <> "" ->
  extractResourceIds diagram = foldl extract_line [] (String_split diagram newline).
Proof.
  intros Hin Hne. unfold extractResourceIds.
  destruct (String.eqb_spec diagram "") as [-> | _]; [| reflexivity].
  simpl in Hin. apply list_elem_of_singleton in Hin. congruence.
Qed.

(** C1.  A node line of a diagram carries an identifier of the form
    word-hyphen-suffix, an opening bracket and a non-empty label between
    double quotes; what comes before the identifier on the line (an
    indentation, a keyword) has no opening bracket and does not end on a
    word character or a hyphen.  For every such line, [extractResourceIds]
    returns an entry whose [id] is exactly that identifier (with the type
    its prefix gives and the cleaned-up label). *)
Theorem extractResourceIds_recovers_id
  (diagram line before word suffix lab rest : string) :
  line ∈ String_split diagram newline ->
  line = before +:+ (word +:+ "-" +:+ suffix)
                +:+ "[" +:+ q +:+ lab +:+ q +:+ rest ->
  all_chars (fun c => negb (c =? "[")%char) before = true ->
  ends_outside is_word_or_hyphen before = true ->
  word <> "" -> all_chars is_word word = true ->
  suffix <> "" -> all_chars is_word_or_hyphen suffix = true ->
  lab <> "" -> all_chars not_dquote lab = true ->
  exists r : Resource,
    r ∈ extractResourceIds diagram
    /\ id r = word +:+ "-" +:+ suffix
    /\ type r = type_of_id (word +:+ "-" +:+ suffix)
    /\ label r = clean_label lab.
Proof.
  intros Hin Hline Hb Hend Hw Hword Hs Hsuffix Hl Hlab.
  pose proof (String_match_node before word suffix lab rest
                Hb Hend Hw Hword Hs Hsuffix Hl Hlab) as Hm.
  rewrite <- Hline in Hm.
  assert (line <> "") as Hne.
  { rewrite Hline. destruct before; [destruct word; [congruence |] |];
      discriminate. }
  rewrite (extractResourceIds_nonempty diagram line Hin Hne).
  eexists. split.
  - apply (foldl_extract_line _ [] line _ Hin Hm).
  - simpl. repeat split; reflexivity.
Qed.

(** C7.  On the confirmation of a remove or of a move, a non-empty
    resource identifier that occurs among none of the identifiers extracted
    from the current diagram aborts the operation: no event is handed to
    [onEdit], and the identifier and the active action are cleared. *)
Theorem handleAction_stale_id_aborts (props : Props) (st : State)
  (action : Action) :
  is_active st action = true ->
  action = Remove \/ action = Move ->
  resourceId st <> "" ->
  (forall r, r ∈ availableResources props -> id r <> resourceId st) ->
  snd (handleAction props st action) = []
  /\ resourceId (fst (handleAction props st action)) = ""
  /\ activeAction (fst (handleAction props st action)) = None.
Proof.
  intros Hactive Haction Hid Hstale.
  unfold handleAction. rewrite Hactive.
  rewrite (find_resource_none props (resourceId st) Hstale).
  apply String.eqb_neq in Hid. rewrite Hid.
  destruct Haction as [-> | ->]; simpl; repeat split.
Qed.

(** The effect that follows a render clears such an identifier as well. *)
Lemma reset_stale_clears (props : Props) (st : State) :
  resourceId st <> "" ->
  (forall r, r ∈ availableResources props -> id r <> resourceId st) ->
  reset_stale props st = cleared st.
Proof.
  intros Hid Hstale. unfold reset_stale.
  rewrite (find_resource_none props (resourceId st) Hstale).
  apply String.eqb_neq in Hid. now rewrite Hid.
Qed.


(** X3.  The resources offered for a move are exactly the extracted
    resources whose identifier starts with [ec2-] or with [rds-]. *)
Lemma movableResources_by_prefix (props : Props) (r : Resource) :
  r ∈ movableResources props
  <-> r ∈ availableResources props
      /\ (startsWith (id r) "ec2-" = true \/ startsWith (id r) "rds-" = true).
Proof.
  unfold movableResources.
  rewrite !list_elem_of_In, filter_In. unfold movable.
  rewrite orb_true_iff, !String.eqb_eq.
  split; intros [Hin H]; (split; [exact Hin |]).
  - apply list_elem_of_In in Hin.
    pose proof (extractResourceIds_type (default "" (currentDiagram props))) as Ht.
    rewrite Forall_forall in Ht. specialize (Ht r Hin).
    rewrite Ht in H. now rewrite type_of_id_EC2, type_of_id_RDS in H.
  - apply list_elem_of_In in Hin.
    pose proof (extractResourceIds_type (default "" (currentDiagram props))) as Ht.
    rewrite Forall_forall in Ht. specialize (Ht r Hin).
    rewrite Ht. now rewrite type_of_id_EC2, type_of_id_RDS.
Qed.

(** A confirmation that nothing stops hands one event to [onEdit]. *)
Lemma handleAction_confirm_emits (props : Props) (st : State) (action : Action) :
  is_active st action = true ->
  action = Add \/ resourceId st = ""
  \/ (exists r, find_resource props (resourceId st) = Some r) ->
  handleAction props st action = (cleared st, [edit_event st action]).
Proof.
  intros Hactive H. unfold handleAction. rewrite Hactive.
  destruct H as [-> | [-> | [r ->]]]; [reflexivity | | ].
  - now rewrite andb_false_r.
  - rewrite bool_decide_eq_true_2 by eauto. simpl. now rewrite andb_false_r.
Qed.

Lemma handleAction_first_click (props : Props) (st : State) (action : Action) :
  is_active st action = false ->
  snd (handleAction props st action) = []
  /\ activeAction (fst (handleAction props st action)) = Some action.
Proof. intros H. unfold handleAction. rewrite H. split; reflexivity. Qed.

(** A diagram of two lines: the header and the node of an instance. *)
Definition sample_label : string :=
  "web-server-1<br/>ID: ec2-web-1<br/>t2.micro".

Definition sample_node_line : string :=
  "    ec2-web-1[" +:+ q +:+ sample_label +:+ q +:+ "]".

Definition sample_diagram : string :=
  "graph TB" +:+ String newline sample_node_line.

Example extractResourceIds_sample :
  extractResourceIds sample_diagram
  = [{| id := "ec2-web-1"; type := "EC2";
        label := "web-server-1 ec2-web-1 t2.micro" |}].
Proof. reflexivity. Qed.

Example extractResourceIds_empty : extractResourceIds "" = [].
Proof. reflexivity. Qed.

(** A node whose label has no quotes, or whose identifier has no hyphen,
    is not extracted. *)
Example extractResourceIds_unquoted :
  extractResourceIds "        EC2_1[EC2: web-server-1]" = [].
Proof. reflexivity. Qed.

Lemma extractResourceIds_recovers_id_witness :
  exists r : Resource,
    r ∈ extractResourceIds sample_diagram
    /\ id r = "ec2-web-1"
    /\ type r = "EC2"
    /\ label r = "web-server-1 ec2-web-1 t2.micro".
Proof.
  refine (extractResourceIds_recovers_id sample_diagram sample_node_line
            "    " "ec2" "web-1" sample_label "]" _ _ _ _ _ _ _ _ _ _).
  - apply list_elem_of_In. vm_compute. right. left. reflexivity.
  - reflexivity.
  - reflexivity.
  - reflexivity.
  - discriminate.
  - reflexivity.
  - discriminate.
  - reflexivity.
  - discriminate.
  - reflexivity.
Defined.

Definition sample_props : Props :=
  {| disabled := false; currentDiagram := Some sample_diagram |}.

(** A removal: a click on the button, the choice of the instance, and a
    click to confirm. *)
Example remove_flow :
  let st1 := fst (handleAction sample_props initial Remove) in
  let st2 := {| selectedResource := selectedResource st1;
                resourceId := "ec2-web-1";
                targetSubnet := targetSubnet st1;
                activeAction := activeAction st1 |} in
  snd (handleAction sample_props initial Remove) = []
  /\ handleAction sample_props st2 Remove
     = (initial,
        [{| action := Remove; resourceType := "ec2";
            Api.resourceId := Some "ec2-web-1";
            Api.targetSubnet := None; properties := None |}]).
Proof. split; reflexivity. Qed.

(** The identifier of a resource that an earlier edit removed is still
    selected when the user confirms. *)
Definition stale_state : State :=
  {| selectedResource := "ec2"; resourceId := "rds-main";
     targetSubnet := "subnet-public-1"; activeAction := Some Remove |}.

Lemma handleAction_stale_id_aborts_witness :
  snd (handleAction sample_props stale_state Remove) = []
  /\ resourceId (fst (handleAction sample_props stale_state Remove)) = ""
  /\ activeAction (fst (handleAction sample_props stale_state Remove)) = None.
Proof.
  apply (handleAction_stale_id_aborts sample_props stale_state Remove).
  - reflexivity.
  - left. reflexivity.
  - discriminate.
  - intros r Hr. apply list_elem_of_In in Hr. vm_compute in Hr.
    destruct Hr as [<- | []]. discriminate.
Defined.



End DiagramControlsFacts.

(* ===================================================================== *)
(** * Facts about values and asynchronous functions *)
(* ===================================================================== *)

Module JsFacts.
Import Js.

(** What holds of the value an asynchronous function returns, whatever the
    network answers and whatever the time is. *)
Fixpoint post {A : Type} (m : io A) (P : A -> Prop) : Prop :=
  match m with
  | Ret a => P a
  | Raise _ => True
  | Fetch _ k => forall r, post (k r) P
  | Clock k => forall t, post (k t) P
  end.

Lemma post_run {A : Type} (m : io A) (P : A -> Prop) net now sent a :
  post m P -> run net now m = (sent, Ok a) -> P a.
Proof.
  revert sent. induction m as [a' | e | req k IH | k IH]; intros sent Hpost Hrun.
  - simpl in Hrun. now inversion Hrun; subst.
  - simpl in Hrun. inversion Hrun.
  - simpl in Hrun, Hpost.
    destruct (run net now (k (net req))) as [sent' r] eqn:E.
    inversion Hrun; subst. eapply IH; [apply Hpost | exact E].
  - simpl in Hrun, Hpost. eapply IH; [apply Hpost | exact Hrun].
Qed.

Lemma post_bind {A B : Type} (m : io A) (f : A -> io B) (P : B -> Prop) :
  post m (fun a => post (f a) P) -> post (m ≫= f) P.
Proof.
  unfold mbind, io_mbind.
  induction m as [a | e | req k IH | k IH]; simpl; intros H; auto.
Qed.

Lemma post_lift {A B : Type} (r : result A) (f : A -> io B) (P : B -> Prop) :
  (forall a, r = Ok a -> post (f a) P) -> post (lift r ≫= f) P.
Proof.
  intros H. destruct r as [a | e]; simpl; [now apply H | exact I].
Qed.

(** The requests of a run of [m ≫= f] are those of [m], then those of the
    rest. *)
Lemma run_bind {A B : Type} (m : io A) (f : A -> io B) net now :
  run net now (m ≫= f)
  = match run net now m with
    | (sent, Ok a) =>
        let '(sent', r) := run net now (f a) in (sent ++ sent', r)
    | (sent, Throw e) => (sent, Throw e)
    end.
Proof.
  unfold mbind, io_mbind.
  induction m as [a | e | req k IH | k IH]; simpl.
  - now destruct (run net now (f a)).
  - reflexivity.
  - rewrite IH. destruct (run net now (k (net req))) as [sent [a | e]].
    + now destruct (run net now (f a)).
    + reflexivity.
  - apply IH.
Qed.

(** A handler that returns makes the whole return. *)
Lemma run_try_catch {A : Type} (body : io A) (h : exn -> A) net now :
  run net now (try_catch body (fun e => Ret (h e)))
  = match run net now body with
    | (sent, Ok a) => (sent, Ok a)
    | (sent, Throw e) => (sent, Ok (h e))
    end.
Proof.
  induction body as [a | e | req k IH | k IH]; simpl; try reflexivity.
  - rewrite IH. now destruct (run net now (k (net req))) as [sent [a | e]].
  - apply IH.
Qed.

Lemma result_mapM_Forall2 {A B : Type} (f : A -> result B) l l' :
  result_mapM f l = Ok l' -> Forall2 (fun x y => f x = Ok y) l l'.
Proof.
  revert l'. induction l as [|x l IH]; intros l' H; simpl in H.
  - inversion H. constructor.
  - destruct (f x) as [y |] eqn:Ex; simpl in H; [| discriminate].
    destruct (result_mapM f l) as [ys |] eqn:El; simpl in H; [| discriminate].
    inversion H; subst. constructor; [assumption | now apply IH].
Qed.

End JsFacts.

(* ===================================================================== *)
(** * Facts about the API client *)
(* ===================================================================== *)

Module ApiFacts.
Import Js Api JsFacts.

Ltac io_simpl :=
  unfold mbind, io_mbind, result_mbind in *;
  cbn [io_bind result_bind lift await_fetch await_json post] in *.

(** ** Warnings *)


Lemma is_str_spec (v : value) (s : string) : is_str v s = true <-> v = VStr s.
Proof.
  destruct v; simpl; try (split; [discriminate | intros H; inversion H]).
  rewrite String.eqb_eq. split; [now intros -> | now intros [= ->]].
Qed.

Lemma map_severity_HIGH : map_severity (VStr "HIGH") = "error".
Proof. reflexivity. Qed.

Lemma map_severity_MEDIUM : map_severity (VStr "MEDIUM") = "warning".
Proof. reflexivity. Qed.



(** The warning [w'] that the client delivers for the warning [w] of the
    backend: the properties of [w], with the severity mapped. *)
Definition delivered (w w' : value) : Prop :=
  exists sev,
    get w "severity" = Ok sev
    /\ w' = VObj (<["severity" := VStr (map_severity sev)]> (spread w)).

Lemma map_warning_delivered (w w' : value) :
  map_warning w = Ok w' -> delivered w w'.
Proof.
  unfold map_warning, delivered. io_simpl.
  destruct (get w "severity") as [sev |]; simpl; [| discriminate].
  intros [= <-]. now exists sev.
Qed.


Lemma mappedWarnings_delivered (data : value) (l : list value) :
  mappedWarnings data = Ok l ->
  exists sw bw,
    get data "security_warnings" = Ok sw
    /\ or_else sw (VArr []) = VArr bw
    /\ Forall2 delivered bw l.
Proof.
  unfold mappedWarnings. io_simpl.
  destruct (get data "security_warnings") as [sw |]; simpl; [| discriminate].
  intros H. exists sw.
  destruct (or_else sw (VArr [])) as [| | | | | bw |]; simpl in H;
    try discriminate.
  exists bw. repeat split.
  apply result_mapM_Forall2 in H.
  eapply Forall2_impl; [exact H |]. intros; now apply map_warning_delivered.
Qed.








(** ** The request of [editDiagram] *)

Definition needs_resource (a : Action) : bool :=
  match a with
  | Remove | Move => true
  | Add => false
  end.

(** The object sent when nothing is lacking. *)
Lemma backendRequest_ok modelId event :
  (needs_resource (action event) = true -> lacking (resourceId event) = false) ->
  (action event = Move -> lacking (targetSubnet event) = false) ->
  exists request, backendRequest modelId event = Ok request.
Proof.
  intros Hid Htarget. unfold backendRequest. io_simpl.
  destruct (action event); simpl in *.
  - eexists; reflexivity.
  - rewrite Hid by reflexivity. eexists; reflexivity.
  - rewrite Hid by reflexivity. simpl.
    rewrite Htarget by reflexivity. eexists; reflexivity.
Qed.

Lemma backendRequest_lacking_id modelId event :
  needs_resource (action event) = true ->
  lacking (resourceId event) = true ->
  backendRequest modelId event
  = Throw (Error "Resource ID is required for remove/move operations").
Proof.
  intros Ha Hid. unfold backendRequest. io_simpl.
  destruct (action event); simpl in *; try discriminate; now rewrite Hid.
Qed.

Lemma backendRequest_lacking_target modelId event :
  action event = Move ->
  lacking (resourceId event) = false ->
  lacking (targetSubnet event) = true ->
  backendRequest modelId event
  = Throw (Error "Target subnet is required for move operation").
Proof.
  intros Ha Hid Htarget. unfold backendRequest. io_simpl.
  rewrite Ha, Hid. simpl. now rewrite Htarget.
Qed.

Lemma backendRequest_shape modelId event request :
  backendRequest modelId event = Ok request ->
  request !! "current_model_id" = Some modelId
  /\ request !! "operation"
     = Some (VStr (action_name (action event) +:+ "_resource"))
  /\ request !! "resource_type" = Some (VStr (resourceType event))
  /\ request !! "resource_id"
     = (if needs_resource (action event)
        then VStr <$> resourceId event else None)
  /\ request !! "target_subnet_id"
     = (match action event with
        | Move => VStr <$> targetSubnet event
        | Add | Remove => None
        end)
  /\ request !! "properties"
     = (match action event with
        | Add => Some (VObj (default default_add_properties (properties event)))
        | Remove | Move => None
        end).
Proof.
  unfold backendRequest. io_simpl.
  destruct (action event); simpl.
  - intros [= <-]. repeat split; reflexivity.
  - destruct (resourceId event) as [rid |]; simpl; [| discriminate].
    destruct (rid =? "")%string; [discriminate |].
    intros [= <-]. repeat split; reflexivity.
  - destruct (resourceId event) as [rid |]; simpl; [| discriminate].
    destruct (rid =? "")%string; [discriminate |]. simpl.
    destruct (targetSubnet event) as [target |]; simpl; [| discriminate].
    destruct (target =? "")%string; [discriminate |].
    intros [= <-]. repeat split; reflexivity.
Qed.

(** The request that carries the object [request] to the backend. *)
Definition edit_request (url : value) (request : gmap string value) : Request :=
  {| Js.url := endpoint url "/edit/diagram"; method := "POST";
     headers := json_headers; body := Some (VObj request) |}.

(** What [editDiagram] makes of the answer to its request. *)
Definition edit_answer (answer : result Response) : io InfrastructureResponse :=
  response ← lift answer;
  if negb (ok response)
  then Raise (Error ("Failed to edit diagram: " +:+ statusText response
                     +:+ " - " +:+ text response))
  else
    data ← await_json response;
    success ← lift (get data "success");
    if negb (truthy success)
    then
      error ← lift (get data "error");
      Raise (Error (to_string (or_else error (VStr "Operation failed"))))
    else
      mapped ← lift (mappedWarnings data);
      mermaid_diagram ← lift (get data "mermaid_diagram");
      terraform_code ← lift (get data "terraform_code");
      model_id ← lift (get data "model_id");
      model_summary ← lift (get data "model_summary");
      Ret {| diagram := or_else mermaid_diagram (VStr "");
             terraform := or_else terraform_code (VStr "");
             warnings := mapped;
             corrections := VUndefined;
             modelId := model_id;
             model := model_summary |}.

Lemma editDiagram_unfold url modelId event :
  editDiagram url modelId event
  = match backendRequest modelId event with
    | Ok request => Fetch (edit_request url request) edit_answer
    | Throw e => Raise e
    end.
Proof.
  unfold editDiagram. io_simpl.
  destruct (backendRequest modelId event); reflexivity.
Qed.

(** Once the answer is there, no further request is sent. *)
Lemma edit_answer_silent answer net now :
  fst (run net now (edit_answer answer)) = [].
Proof.
  unfold edit_answer. io_simpl.
  destruct answer as [response | e]; io_simpl; [| reflexivity].
  destruct (ok response); simpl; [| reflexivity].
  unfold await_json.
  destruct (json response) as [data |]; io_simpl; [| reflexivity].
  destruct data; simpl; try reflexivity.
  destruct (truthy _); simpl; [| reflexivity].
  match goal with
  | |- context [mappedWarnings ?d] =>
      destruct (mappedWarnings d) as [l |]; reflexivity
  end.
Qed.

Lemma editDiagram_sent url modelId event net now :
  fst (run net now (editDiagram url modelId event))
  = match backendRequest modelId event with
    | Ok request => [edit_request url request]
    | Throw _ => []
    end.
Proof.
  rewrite editDiagram_unfold.
  destruct (backendRequest modelId event) as [request | e]; [| reflexivity].
  simpl.
  pose proof (edit_answer_silent (net (edit_request url request)) net now) as H.
  destruct (run net now (edit_answer (net (edit_request url request)))).
  simpl in *. now rewrite H.
Qed.

(** The message of the error that answers a failed operation. *)
Definition failure_message (error : value) : string :=
  to_string (or_else error (VStr "Operation failed")).

Lemma failure_message_reported (message : string) :
  message <> "" -> failure_message (VStr message) = message.
Proof.
  intros H. unfold failure_message, or_else. simpl.
  apply String.eqb_neq in H. now rewrite H.
Qed.

Lemma failure_message_missing : failure_message VUndefined = "Operation failed".
Proof. reflexivity. Qed.

Lemma edit_answer_failure response data success error net now :
  ok response = true ->
  json response = Some data ->
  get data "success" = Ok success ->
  truthy success = false ->
  get data "error" = Ok error ->
  run net now (edit_answer (Ok response))
  = ([], Throw (Error (failure_message error))).
Proof.
  intros Hok Hjson Hsuccess Hfalsy Herror.
  unfold edit_answer, await_json. io_simpl.
  rewrite Hok, Hjson. io_simpl. rewrite Hsuccess. io_simpl.
  rewrite Hfalsy. simpl. rewrite Herror. reflexivity.
Qed.

(** Whether a property is there, for each of the three actions. *)
Ltac presence :=
  repeat match goal with
    | |- _ /\ _ => split
    | |- is_Some None <-> _ =>
        split;
        [ intros Hsome; destruct Hsome as [? Hsome]; discriminate Hsome
        | intros Haction;
          first [ discriminate Haction
                | destruct Haction as [Haction | Haction]; discriminate Haction ] ]
    | |- is_Some (Some _) <-> _ =>
        split; [ intros _; auto | intros _; eexists; reflexivity ]
    end.

(** C8.  Every request that [editDiagram] sends carries an object whose
    operation is the name of the action followed by [_resource], which
    always has the resource type, and which has [resource_id] exactly for a
    remove or a move, [target_subnet_id] exactly for a move and
    [properties] exactly for an add. *)
Theorem editDiagram_request_shape
  (url modelId : value) (event : DiagramEditEvent)
  (net : Request -> result Response) (now : string) (req : Request) :
  req ∈ fst (run net now (editDiagram url modelId event)) ->
  exists request : gmap string value,
    body req = Some (VObj request)
    /\ request !! "operation"
       = Some (VStr (action_name (action event) +:+ "_resource"))
    /\ request !! "resource_type" = Some (VStr (resourceType event))
    /\ (is_Some (request !! "resource_id")
        <-> action event = Remove \/ action event = Move)
    /\ (is_Some (request !! "target_subnet_id") <-> action event = Move)
    /\ (is_Some (request !! "properties") <-> action event = Add).
Proof.
  rewrite editDiagram_sent.
  destruct (backendRequest modelId event) as [request | e] eqn:E;
    [| intros H; now apply elem_of_nil in H].
  intros H. apply list_elem_of_singleton in H. subst req.
  exists request. split; [reflexivity |].
  destruct (backendRequest_shape _ _ _ E) as (_ & Hop & Hty & Hid & Htg & Hpr).
  split; [exact Hop |]. split; [exact Hty |].
  rewrite Hid, Htg, Hpr.
  assert (lacking (resourceId event) = false
          \/ needs_resource (action event) = false) as Hrid.
  { destruct (needs_resource (action event)) eqn:Ha; [| now right].
    left. destruct (lacking (resourceId event)) eqn:Hl; [| reflexivity].
    rewrite (backendRequest_lacking_id _ _ Ha Hl) in E. discriminate. }
  assert (action event = Move -> lacking (targetSubnet event) = false) as Htgt.
  { intros Ha. destruct (lacking (targetSubnet event)) eqn:Hl; [| reflexivity].
    destruct Hrid as [Hrid | Hrid]; [| now rewrite Ha in Hrid].
    rewrite (backendRequest_lacking_target _ _ Ha Hrid Hl) in E. discriminate. }
  destruct (action event); simpl in *.
  - presence.
  - destruct Hrid as [Hrid | [=]].
    destruct (resourceId event); [| discriminate]. simpl. presence.
  - destruct Hrid as [Hrid | [=]]. specialize (Htgt eq_refl).
    destruct (resourceId event); [| discriminate].
    destruct (targetSubnet event); [| discriminate]. simpl. presence.
Qed.

(** C6.  [editDiagram] reports a failure as an error and returns no
    response then.  An event that removes or moves without a resource
    identifier, and an event that moves without a target subnet, raise
    before any request is sent.  When the backend answers that the
    operation did not succeed, the error raised has the message that the
    backend reports ([Operation failed] where it reports none). *)
Theorem editDiagram_failures
  (url modelId : value) (event : DiagramEditEvent)
  (net : Request -> result Response) (now : string) :
  ((action event = Remove \/ action event = Move) ->
   lacking (resourceId event) = true ->
   run net now (editDiagram url modelId event)
   = ([], Throw (Error "Resource ID is required for remove/move operations")))
  /\ (action event = Move ->
      lacking (targetSubnet event) = true ->
      exists message,
        run net now (editDiagram url modelId event)
        = ([], Throw (Error message))
        /\ (lacking (resourceId event) = false ->
            message = "Target subnet is required for move operation"))
  /\ (forall request response data success error,
        backendRequest modelId event = Ok request ->
        net (edit_request url request) = Ok response ->
        ok response = true ->
        json response = Some data ->
        get data "success" = Ok success ->
        truthy success = false ->
        get data "error" = Ok error ->
        run net now (editDiagram url modelId event)
        = ([edit_request url request], Throw (Error (failure_message error)))
        /\ (forall message,
              error = VStr message -> message <> "" ->
              failure_message error = message))
  /\ (forall request response,
        backendRequest modelId event = Ok request ->
        net (edit_request url request) = Ok response ->
        ok response = false ->
        run net now (editDiagram url modelId event)
        = ([edit_request url request],
           Throw (Error ("Failed to edit diagram: " +:+ statusText response
                         +:+ " - " +:+ text response)))).
Proof.
  split; [| split; [| split]].
  - intros Ha Hid. rewrite editDiagram_unfold.
    rewrite backendRequest_lacking_id; [reflexivity | | exact Hid].
    now destruct Ha as [-> | ->].
  - intros Ha Htarget. rewrite editDiagram_unfold.
    destruct (lacking (resourceId event)) eqn:Hid.
    + rewrite backendRequest_lacking_id; [| now rewrite Ha | exact Hid].
      eexists. split; [reflexivity | discriminate].
    + rewrite backendRequest_lacking_target by assumption.
      eexists. split; reflexivity.
  - intros request response data success error
      Hreq Hnet Hok Hjson Hsuccess Hfalsy Herror.
    split.
    + rewrite editDiagram_unfold, Hreq. cbn [run]. rewrite Hnet.
      now rewrite (edit_answer_failure response data success error net now).
    + intros message -> Hne. now apply failure_message_reported.
  - intros request response Hreq Hnet Hok.
    rewrite editDiagram_unfold, Hreq. cbn [run]. rewrite Hnet.
    unfold edit_answer. io_simpl. now rewrite Hok.
Qed.

(** ** The health check *)

Definition health_request (url : value) : Request :=
  {| Js.url := endpoint url "/health"; method := "GET";
     headers := json_headers; body := None |}.

(** C9.  [checkHealth] returns a status for every outcome of its request
    and throws for none: [healthy], with the time, exactly when the
    response is [ok]; [unhealthy] for a response that is not, and for a
    request that fails. *)
Theorem checkHealth_total
  (url : value) (net : Request -> result Response) (now : string) :
  exists st : HealthStatus,
    run net now (checkHealth url) = ([health_request url], Ok st)
    /\ (status st = healthy
        <-> exists response,
              net (health_request url) = Ok response /\ ok response = true)
    /\ (status st = healthy -> timestamp st = Some now)
    /\ ((exists response,
           net (health_request url) = Ok response /\ ok response = false)
        -> st = {| status := unhealthy; timestamp := None |})
    /\ ((exists e, net (health_request url) = Throw e)
        -> st = {| status := unhealthy; timestamp := None |}).
Proof.
  unfold checkHealth. io_simpl. cbn [try_catch run].
  fold (health_request url).
  destruct (net (health_request url)) as [response | e] eqn:Hnet.
  - cbn [lift io_bind try_catch]. destruct (ok response) eqn:Hok.
    + eexists. split; [reflexivity |]. simpl. repeat split; eauto.
      * intros (r & [= <-] & Hr). congruence.
      * intros (e & [=]).
    + eexists. split; [reflexivity |]. simpl. repeat split; eauto.
      * discriminate.
      * intros (r & [= <-] & Hr). congruence.
      * discriminate.
  - eexists. split; [reflexivity |]. simpl. repeat split; eauto.
    + discriminate.
    + intros (r & [=] & _).
    + discriminate.
Qed.

(** ** Runs against sample backends *)

Definition answer_with (data : value) : Request -> result Response :=
  fun _ => Ok {| ok := true; statusText := "OK"; text := ""; json := Some data |}.

(** A backend that reports one finding of high severity and one of a
    severity that the client does not know. *)
Definition sample_generated : value :=
  VObj {[ "mermaid_diagram" := VStr "graph TB";
          "terraform_code" := VStr "provider";
          "model_id" := VStr "m1";
          "security_warnings" :=
            VArr [VObj {[ "severity" := VStr "HIGH";
                          "message" := VStr "RDS not in private subnet" ]};
                  VObj {[ "severity" := VStr "LOW";
                          "message" := VStr "RDS not Multi-AZ" ]}] ]}.

Definition sample_delivered : InfrastructureResponse :=
  {| diagram := VStr "graph TB";
     terraform := VStr "provider";
     warnings :=
       [VObj {[ "severity" := VStr "error";
                "message" := VStr "RDS not in private subnet" ]};
        VObj {[ "severity" := VStr "info";
                "message" := VStr "RDS not Multi-AZ" ]}];
     corrections := VArr [];
     modelId := VStr "m1";
     model := VUndefined |}.


Definition sample_move : DiagramEditEvent :=
  {| action := Move; resourceType := "ec2";
     resourceId := Some "ec2-web-1";
     targetSubnet := Some "subnet-private-1";
     properties := None |}.

Definition sample_move_request : gmap string value :=
  {[ "current_model_id" := VStr "m1";
     "operation" := VStr "move_resource";
     "resource_type" := VStr "ec2";
     "resource_id" := VStr "ec2-web-1";
     "target_subnet_id" := VStr "subnet-private-1" ]}.

(** A backend that refuses the operation. *)
Definition sample_refusal : value :=
  VObj {[ "success" := VBool false;
          "error" := VStr "Resource ec2-web-1 not found" ]}.

Lemma editDiagram_request_shape_witness :
  exists request : gmap string value,
    Some (VObj sample_move_request) = Some (VObj request)
    /\ request !! "operation" = Some (VStr "move_resource")
    /\ request !! "resource_type" = Some (VStr "ec2")
    /\ (is_Some (request !! "resource_id") <-> Move = Remove \/ Move = Move)
    /\ (is_Some (request !! "target_subnet_id") <-> Move = Move)
    /\ (is_Some (request !! "properties") <-> Move = Add).
Proof.
  refine (editDiagram_request_shape VUndefined (VStr "m1") sample_move
            (answer_with sample_refusal) ""
            (edit_request VUndefined sample_move_request) _).
  apply list_elem_of_In. left. vm_compute. reflexivity.
Defined.

Definition sample_remove_without_id : DiagramEditEvent :=
  {| action := Remove; resourceType := "ec2"; resourceId := None;
     targetSubnet := None; properties := None |}.

Lemma editDiagram_failures_witness :
  run (answer_with sample_refusal) ""
      (editDiagram VUndefined (VStr "m1") sample_remove_without_id)
  = ([], Throw (Error "Resource ID is required for remove/move operations"))
  /\ exists request,
       run (answer_with sample_refusal) ""
           (editDiagram VUndefined (VStr "m1") sample_move)
       = ([edit_request VUndefined request],
          Throw (Error "Resource ec2-web-1 not found")).
Proof.
  split.
  - refine (proj1 (editDiagram_failures VUndefined (VStr "m1")
                     sample_remove_without_id (answer_with sample_refusal) "")
              _ _).
    + left. reflexivity.
    + reflexivity.
  - destruct (backendRequest_ok (VStr "m1") sample_move) as (request & Hreq).
    + reflexivity.
    + reflexivity.
    + exists request.
      refine (proj1 (proj1 (proj2 (proj2 (editDiagram_failures VUndefined
                       (VStr "m1") sample_move (answer_with sample_refusal) "")))
                request _ sample_refusal (VBool false)
                (VStr "Resource ec2-web-1 not found") Hreq _ _ _ _ _ _)).
      * reflexivity.
      * reflexivity.
      * reflexivity.
      * reflexivity.
      * reflexivity.
      * reflexivity.
Defined.

End ApiFacts.

(* ===================================================================== *)
(** * Facts about the page *)
(* ===================================================================== *)

Module IndexFacts.
Import Js JsFacts Index.

Definition is_setTerraform (u : Update) : bool :=
  match u with
  | setTerraform _ => true
  | _ => false
  end.

(** The setters called leave the text of the editor alone. *)
Definition spares_editor (us : list Update) : Prop :=
  Forall (fun u => is_setTerraform u = false) us.

(** The options of the call in [handleApplyTerraform]. *)
Definition skipping : Options := {| skipTerraformUpdate := Some true |}.

(** The state [st] of the page once the setters that
    [updateInfrastructure] calls, in the render of state [render], have
    taken effect. *)
Definition after_update (st render : State)
  (response : Api.InfrastructureResponse) (options : Options) : State :=
  commit st (updateInfrastructure render response options).

Lemma commit_spares_editor (st : State) (us : list Update) :
  spares_editor us -> terraform (commit st us) = terraform st.
Proof.
  unfold commit. revert st.
  induction us as [|u us IH]; intros st H; [reflexivity |].
  inversion H as [| ? ? Hu Hus]; subst. simpl. rewrite IH by assumption.
  destruct u; simpl in *; try reflexivity; discriminate.
Qed.

Lemma updateInfrastructure_skip_spares render response :
  spares_editor
    (updateInfrastructure render response {| skipTerraformUpdate := Some true |}).
Proof.
  unfold updateInfrastructure, spares_editor. simpl.
  destruct (truthy (Api.modelId response)); repeat constructor.
Qed.

Lemma post_always {A : Type} (m : io A) (P : A -> Prop) :
  (forall a, P a) -> post m P.
Proof. intros H. induction m; simpl; auto. Qed.

Lemma handleApplyTerraform_body_spares url render :
  post
    (inner ←
       (if isHealthy render then
          _ ← lift (touch (originalTerraform render));
          _ ← lift (touch (terraform render));
          response ← Api.editTerraform url
            (currentModelId render) (originalTerraform render)
            (terraform render);
          Ret (updateInfrastructure render response
                 {| skipTerraformUpdate := Some true |})
        else Ret []);
     Ret ([setSyncStatus syncing] ++ inner ++ [setSyncStatus synced]))
    spares_editor.
Proof.
  apply post_bind.
  assert (forall inner, spares_editor inner ->
            spares_editor ([setSyncStatus syncing] ++ inner
                           ++ [setSyncStatus synced])) as Hwrap.
  { intros inner H. unfold spares_editor in *.
    rewrite !Forall_app. repeat split; [| assumption |]; repeat constructor. }
  destruct (isHealthy render).
  - apply post_lift. intros _ _. apply post_lift. intros _ _.
    apply post_bind. apply post_always. intros response.
    cbn [post]. apply Hwrap, updateInfrastructure_skip_spares.
  - cbn [post]. apply Hwrap. constructor.
Qed.

(** The handler returns, whatever the network does, and none of the
    setters it calls is that of the text of the editor. *)
Lemma handleApplyTerraform_spares url render net now :
  exists updates,
    snd (run net now (handleApplyTerraform url render)) = Ok updates
    /\ spares_editor updates.
Proof.
  unfold handleApplyTerraform.
  destruct (truthy (currentModelId render)); simpl.
  - rewrite (run_try_catch _
               (fun _ => [setSyncStatus syncing; setSyncStatus error])).
    pose proof (handleApplyTerraform_body_spares url render) as Hpost.
    match goal with
    | |- context [run net now ?body] =>
        destruct (run net now body) as [sent [updates | e]] eqn:E
    end.
    + exists updates. split; [reflexivity |].
      exact (post_run _ _ _ _ _ _ Hpost E).
    + eexists. split; [reflexivity |]. repeat constructor.
  - eexists. split; [reflexivity |]. constructor.
Qed.

(** C2.  [updateInfrastructure] with [skipTerraformUpdate] leaves the
    text of the editor as it is and sets the baseline to the text of the
    render, the text that was applied; the diagram and the warnings are
    those of the response.  Without the option, the text and the baseline
    are both the code of the response.  Applying Terraform changes takes
    the first path: whatever the network answers, the text that the user
    wrote is not altered. *)
Theorem updateInfrastructure_preserves_user_code
  (url : value) (render st : State) (response : Api.InfrastructureResponse)
  (net : Request -> result Response) (now : string) :
  (terraform (after_update st render response skipping) = terraform st
   /\ originalTerraform (after_update st render response skipping)
      = terraform render
   /\ diagram (after_update st render response skipping)
      = Api.diagram response
   /\ warnings (after_update st render response skipping)
      = Api.warnings response)
  /\ (terraform (after_update st render response no_options)
      = Api.terraform response
      /\ originalTerraform (after_update st render response no_options)
         = Api.terraform response
      /\ diagram (after_update st render response no_options)
         = Api.diagram response
      /\ warnings (after_update st render response no_options)
         = Api.warnings response)
  /\ originalTerraform (after_update render render response skipping)
     = terraform (after_update render render response skipping)
  /\ (exists updates,
        snd (run net now (handleApplyTerraform url render)) = Ok updates
        /\ terraform (commit st updates) = terraform st).
Proof.
  unfold after_update, skipping. split; [| split; [| split]].
  - unfold updateInfrastructure, commit. simpl.
    destruct (truthy (Api.modelId response)); simpl; repeat split.
  - unfold updateInfrastructure, commit. simpl.
    destruct (truthy (Api.modelId response)); simpl; repeat split.
  - unfold updateInfrastructure, commit. simpl.
    destruct (truthy (Api.modelId response)); reflexivity.
  - destruct (handleApplyTerraform_spares url render net now)
      as (updates & Hrun & Hspares).
    exists updates. split; [exact Hrun |].
    now apply commit_spares_editor.
Qed.

(** What the user types becomes the text of the editor. *)
Lemma handleTerraformChange_sets (render st : State) (newCode : string) :
  terraform (commit st (handleTerraformChange render newCode)) = VStr newCode.
Proof.
  unfold handleTerraformChange, commit. simpl.
  destruct (negb (is_str (terraform render) newCode)); reflexivity.
Qed.

(** An edit that fails changes nothing of the page but the status. *)
Lemma handleDiagramEdit_failure url render event net now e :
  truthy (currentModelId render) = true ->
  isHealthy render = true ->
  snd (run net now (Api.editDiagram url (currentModelId render) event))
  = Throw e ->
  snd (run net now (handleDiagramEdit url render event))
  = Ok [setSyncStatus syncing; setSyncStatus error].
Proof.
  intros Hid Hhealthy Hfail. unfold handleDiagramEdit.
  rewrite Hid, Hhealthy. simpl.
  rewrite (run_try_catch _
             (fun _ => [setSyncStatus syncing; setSyncStatus error])).
  rewrite !run_bind.
  destruct (run net now (Api.editDiagram url (currentModelId render) event))
    as [sent [response | e']]; simpl in Hfail; [discriminate |].
  reflexivity.
Qed.

End IndexFacts.

(* ===================================================================== *)
(** * Facts about the socket hook *)
(* ===================================================================== *)

Module UseWebSocketFacts.
Import Js UseWebSocket.

(** C10.  [sendMessage] calls [send] only when there is a socket, the
    hook is connected and the socket is open; in every other state it
    does nothing.  It returns in every case: what [JSON.stringify] or
    [send] throws is caught. *)
Theorem sendMessage_guarded
  (JSON_stringify : value -> result string)
  (ws : option WebSocket) (isConnected : bool) (type : string) (data : value) :
  snd (sendMessage JSON_stringify ws isConnected type data) = Ok tt
  /\ (forall payload,
        payload ∈ fst (sendMessage JSON_stringify ws isConnected type data) ->
        exists socket,
          ws = Some socket /\ isConnected = true /\ readyState socket = OPEN
          /\ JSON_stringify (message type data) = Ok payload)
  /\ ((ws = None \/ isConnected = false
       \/ exists socket, ws = Some socket /\ readyState socket <> OPEN) ->
      sendMessage JSON_stringify ws isConnected type data = ([], Ok tt))
  /\ (forall socket payload,
        ws = Some socket -> isConnected = true -> readyState socket = OPEN ->
        JSON_stringify (message type data) = Ok payload ->
        fst (sendMessage JSON_stringify ws isConnected type data) = [payload]).
Proof.
  unfold sendMessage. repeat split.
  - destruct ws as [socket |]; [| reflexivity].
    destruct (isConnected && is_open (readyState socket)); [| reflexivity].
    unfold mbind, result_mbind. simpl.
    destruct (JSON_stringify (message type data)) as [payload |]; simpl;
      [| reflexivity].
    now destruct (send socket payload) as [[] |].
  - intros payload H.
    destruct ws as [socket |]; [| now apply elem_of_nil in H].
    destruct isConnected; [| now apply elem_of_nil in H].
    destruct (readyState socket) eqn:Hstate; simpl in H;
      try (now apply elem_of_nil in H).
    destruct (JSON_stringify (message type data)) as [payload' |];
      [| now apply elem_of_nil in H].
    apply list_elem_of_singleton in H. subst. now exists socket.
  - intros [-> | [-> | (socket & -> & Hstate)]].
    + reflexivity.
    + now destruct ws.
    + destruct (readyState socket); try congruence;
        now rewrite andb_false_r.
  - intros socket payload -> -> Hstate Hpayload.
    rewrite Hstate, Hpayload. reflexivity.
Qed.

(** An open socket whose [send] succeeds, a serializer that writes every
    message as the same text, and one that throws. *)
Definition open_socket : WebSocket :=
  {| readyState := OPEN; send := fun _ => Ok tt |}.

Definition closing_socket : WebSocket :=
  {| readyState := CLOSING; send := fun _ => Throw TypeError |}.

Definition writes (payload : string) : value -> result string :=
  fun _ => Ok payload.

Definition throws : value -> result string :=
  fun _ => Throw TypeError.

Lemma sendMessage_guarded_witness :
  sendMessage (writes "{}") (Some open_socket) true "sync_request" (VObj ∅)
  = (["{}"], Ok tt)
  /\ sendMessage (writes "{}") (Some closing_socket) true "sync_request" (VObj ∅)
     = ([], Ok tt)
  /\ snd (sendMessage throws (Some open_socket) true "sync_request" (VObj ∅))
     = Ok tt.
Proof.
  split; [| split].
  - destruct (sendMessage_guarded (writes "{}") (Some open_socket) true
                "sync_request" (VObj ∅)) as (Hret & _ & _ & Hsend).
    specialize (Hsend open_socket "{}" eq_refl eq_refl eq_refl eq_refl).
    destruct (sendMessage (writes "{}") (Some open_socket) true
                "sync_request" (VObj ∅)) as [handed outcome].
    simpl in *. now rewrite Hret, Hsend.
  - apply (sendMessage_guarded (writes "{}") (Some closing_socket) true
             "sync_request" (VObj ∅)).
    right. right. exists closing_socket. split; [reflexivity | discriminate].
  - apply (sendMessage_guarded throws (Some open_socket) true
             "sync_request" (VObj ∅)).
Defined.

End UseWebSocketFacts.

(* ===================================================================== *)
(** * Facts about the defaults of an add *)
(* ===================================================================== *)

Module AddDefaultsFacts.
Import Js Api DiagramControls ApiFacts.

(** The identifiers that the properties of an add name as containers:
    [subnet_id] and the items of [subnet_ids]. *)
Definition named_subnets (props : gmap string value) : list value :=
  match props !! "subnet_id" with
  | Some v => [v]
  | None => []
  end
  ++ match props !! "subnet_ids" with
     | Some (VArr l) => l
     | _ => []
     end.

(** The containers that the request of an add without properties names
    are first subnets of the graph, of one visibility or the other. *)
Definition defaults_to_first_subnet : Prop :=
  forall (g : MutationEngine.ResourceGraph) (modelId : value)
         (event : DiagramEditEvent) (request props : gmap string value),
    action event = Add ->
    properties event = None ->
    backendRequest modelId event = Ok request ->
    request !! "properties" = Some (VObj props) ->
    forall v, v ∈ named_subnets props ->
      exists visibility s,
        MutationEngine.first_subnet g visibility = Some s /\ v = VStr s.

(** A graph whose subnets have other names than the defaults. *)
Definition renamed_graph : MutationEngine.ResourceGraph :=
  [("vpc-1",
    {| MutationEngine.type := MutationEngine.Vpc;
       MutationEngine.visibility := None; MutationEngine.parent := None |});
   ("subnet-a",
    {| MutationEngine.type := MutationEngine.Subnet;
       MutationEngine.visibility := Some MutationEngine.public;
       MutationEngine.parent := Some "vpc-1" |});
   ("subnet-b",
    {| MutationEngine.type := MutationEngine.Subnet;
       MutationEngine.visibility := Some MutationEngine.private;
       MutationEngine.parent := Some "vpc-1" |})].

Definition add_without_properties : DiagramEditEvent :=
  {| action := Add; resourceType := "ec2"; Api.resourceId := None;
     Api.targetSubnet := None; properties := None |}.

(** On that graph, the request of an add without properties names
    [subnet-public-1], which is no subnet of the graph. *)
Lemma add_defaults_ignore_graph : ~ defaults_to_first_subnet.
Proof.
  intros H.
  destruct (backendRequest_ok (VStr "m1") add_without_properties)
    as (request & Hreq); [discriminate | discriminate |].
  destruct (backendRequest_shape _ _ _ Hreq) as (_ & _ & _ & _ & _ & Hprops).
  assert (exists visibility s,
             MutationEngine.first_subnet renamed_graph visibility = Some s
             /\ VStr "subnet-public-1" = VStr s)
    as (visibility & s & Hfirst & Hs).
  { apply (H renamed_graph (VStr "m1") add_without_properties
             request default_add_properties).
    - reflexivity.
    - reflexivity.
    - exact Hreq.
    - exact Hprops.
    - apply list_elem_of_In. left. reflexivity. }
  injection Hs as <-. destruct visibility; discriminate.
Qed.

(** C4, as the code has it.  An add without properties is sent with
    fixed defaults, [subnet_id] [subnet-public-1] and [subnet_ids]
    [[subnet-private-1]], whatever the model; properties that the event
    has are sent as they are.  An add confirmed in the controls has the
    fixed properties of its resource type, whatever the diagram: for an
    instance the subnet [subnet-public-1]. *)
Theorem add_defaults_are_fixed
  (modelId : value) (event : DiagramEditEvent) (props : Props) (st : State) :
  action event = Add ->
  is_active st Add = true ->
  (exists request,
      backendRequest modelId event = Ok request
      /\ request !! "properties"
         = Some (VObj (default
                         {[ "subnet_id" := VStr "subnet-public-1";
                            "subnet_ids" := VArr [VStr "subnet-private-1"] ]}
                         (properties event))))
  /\ handleAction props st Add = (cleared st, [edit_event st Add])
  /\ properties (edit_event st Add)
     = Some (getDefaultProperties (selectedResource st))
  /\ getDefaultProperties "ec2"
     = {[ "subnet_id" := VStr "subnet-public-1";
          "instance_type" := VStr "t2.micro" ]}.
Proof.
  intros Hadd Hactive. repeat split.
  - destruct (backendRequest_ok modelId event) as (request & Hreq).
    + rewrite Hadd. discriminate.
    + rewrite Hadd. discriminate.
    + exists request. split; [exact Hreq |].
      destruct (backendRequest_shape _ _ _ Hreq) as (_ & _ & _ & _ & _ & Hp).
      now rewrite Hadd in Hp.
  - apply DiagramControlsFacts.handleAction_confirm_emits;
      [exact Hactive | now left].
Qed.

Definition adding_state : State :=
  {| selectedResource := "ec2"; DiagramControls.resourceId := "";
     DiagramControls.targetSubnet := "subnet-public-1";
     activeAction := Some Add |}.

Lemma add_defaults_are_fixed_witness :
  (exists request,
      backendRequest (VStr "m1") add_without_properties = Ok request
      /\ request !! "properties"
         = Some (VObj {[ "subnet_id" := VStr "subnet-public-1";
                         "subnet_ids" := VArr [VStr "subnet-private-1"] ]}))
  /\ snd (handleAction DiagramControlsFacts.sample_props adding_state Add)
     = [edit_event adding_state Add].
Proof.
  destruct (add_defaults_are_fixed (VStr "m1") add_without_properties
              DiagramControlsFacts.sample_props adding_state
              eq_refl eq_refl) as (Hreq & Hact & _).
  split; [exact Hreq |].
  rewrite Hact. reflexivity.
Defined.

End AddDefaultsFacts.

(* ===================================================================== *)
(** * More facts about the extraction and the controls *)
(* ===================================================================== *)

Module ControlsFacts.
Import Text Js Api DiagramControls TextFacts DiagramControlsFacts ApiFacts.






Lemma foldl_extract_line_length lines resources :
  length (foldl extract_line resources lines)
  <= length resources + length lines.
Proof.
  revert resources. induction lines as [|l lines IH]; intros resources; simpl.
  - now rewrite Nat.add_0_r.
  - etransitivity; [apply IH |].
    unfold extract_line. destruct (String_match l node_pattern).
    + rewrite length_app. simpl. rewrite <- Nat.add_assoc. reflexivity.
    + rewrite <- Nat.add_succ_comm. apply Nat.add_le_mono_r.
      apply Nat.le_succ_diag_r.
Qed.

(** X2.  A line gives at most one entry, the one of its first node: the
    entries of a diagram are never more than its lines, and a second node
    on the line of a first one is not extracted. *)
Theorem extractResourceIds_one_per_line (diagram : string) :
  length (extractResourceIds diagram)
  <= length (String_split diagram newline)
  /\ forall word suffix lab rest,
       word <> "" -> all_chars is_word word = true ->
       suffix <> "" -> all_chars is_word_or_hyphen suffix = true ->
       lab <> "" -> all_chars not_dquote lab = true ->
       all_chars (fun c => negb (c =? newline)%char)
         (word +:+ "-" +:+ suffix +:+ "[" +:+ q +:+ lab +:+ q +:+ rest) = true ->
       map id (extractResourceIds
                 (word +:+ "-" +:+ suffix +:+ "[" +:+ q +:+ lab +:+ q +:+ rest))
       = [word +:+ "-" +:+ suffix].
Proof.
  split.
  - unfold extractResourceIds. destruct (diagram =? "")%string.
    + apply Nat.le_0_l.
    + apply (foldl_extract_line_length _ []).
  - intros word suffix lab rest Hw Hword Hs Hsuffix Hl Hlab Hline.
    unfold extractResourceIds.
    destruct (String.eqb_spec
                (word +:+ "-" +:+ suffix +:+ "[" +:+ q +:+ lab +:+ q +:+ rest) "")
      as [Heq | _].
    { destruct word; [congruence | discriminate]. }
    rewrite String_split_line by exact Hline.
    simpl. unfold extract_line.
    pose proof (String_match_node "" word suffix lab rest
                  eq_refl eq_refl Hw Hword Hs Hsuffix Hl Hlab) as Hm.
    simpl in Hm. rewrite !append_assoc in Hm. simpl in Hm.
    simpl. rewrite Hm. reflexivity.
Qed.

Lemma extractResourceIds_one_per_line_witness :
  map id (extractResourceIds
            ("lb-1[" +:+ q +:+ "LB" +:+ q +:+ "] --> ec2-web-1["
             +:+ q +:+ "web" +:+ q +:+ "]"))
  = ["lb-1"].
Proof.
  refine (proj2 (extractResourceIds_one_per_line "")
            "lb" "1" "LB"
            ("] --> ec2-web-1[" +:+ q +:+ "web" +:+ q +:+ "]")
            _ _ _ _ _ _ _).
  - discriminate.
  - reflexivity.
  - discriminate.
  - reflexivity.
  - discriminate.
  - reflexivity.
  - reflexivity.
Defined.

Lemma find_resource_some props rid r :
  find_resource props rid = Some r ->
  r ∈ availableResources props /\ id r = rid.
Proof.
  unfold find_resource. intros H. apply find_some in H as [Hin Heq].
  split; [now apply list_elem_of_In | now apply String.eqb_eq].
Qed.

(** The identifier is empty or that of an extracted resource. *)
Definition selection_valid (props : Props) (st : State) : Prop :=
  resourceId st = ""
  \/ exists r, r ∈ availableResources props /\ id r = resourceId st.

(** X4.  After the effect that follows a render, the identifier selected
    is empty or that of a resource of the current diagram; a state whose
    identifier is so is left as it is, with its active action. *)
Theorem reset_stale_valid (props : Props) (st : State) :
  selection_valid props (reset_stale props st)
  /\ (selection_valid props st -> reset_stale props st = st)
  /\ (~ selection_valid props st -> reset_stale props st = cleared st).
Proof.
  unfold reset_stale, selection_valid.
  destruct (String.eqb_spec (resourceId st) "") as [Hempty | Hne]; simpl.
  - split; [now left | split; [reflexivity |]].
    intros H. exfalso. apply H. now left.
  - destruct (find_resource props (resourceId st)) as [r |] eqn:Hfind.
    + rewrite bool_decide_eq_true_2 by eauto. simpl.
      apply find_resource_some in Hfind.
      split; [right; now exists r | split; [reflexivity |]].
      intros H. exfalso. apply H. right. now exists r.
    + rewrite bool_decide_eq_false_2 by (intros [? [=]]). simpl.
      split; [now left | split; [| reflexivity]].
      intros [Hempty | (r & Hin & Hid)]; [congruence |].
      exfalso. unfold find_resource in Hfind.
      pose proof (find_none _ _ Hfind r (proj1 (list_elem_of_In _ _) Hin)) as Hf.
      simpl in Hf. apply String.eqb_neq in Hf. congruence.
Qed.

Lemma reset_stale_valid_witness :
  reset_stale sample_props stale_state = cleared stale_state.
Proof.
  refine (proj2 (proj2 (reset_stale_valid sample_props stale_state)) _).
  intros [Hempty | (r & Hin & Hid)]; [discriminate |].
  apply list_elem_of_In in Hin. vm_compute in Hin.
  destruct Hin as [<- | []]. discriminate.
Defined.

(** X5.  A click hands at most one event to [onEdit], and only the click
    that confirms the active action does: the event has that action and
    the resource type selected, a remove or a move that names a resource
    names one of the current diagram, and the identifier and the active
    action are cleared. *)
Theorem handleAction_emits_valid (props : Props) (st : State)
  (action : Action) (event : DiagramEditEvent) :
  event ∈ snd (handleAction props st action) ->
  handleAction props st action = (cleared st, [event])
  /\ is_active st action = true
  /\ Api.action event = action
  /\ resourceType event = selectedResource st
  /\ (action <> Add ->
      forall rid, Api.resourceId event = Some rid ->
        rid = resourceId st
        /\ exists r, r ∈ availableResources props /\ id r = rid).
Proof.
  unfold handleAction.
  destruct (is_active st action) eqn:Hactive;
    [| intros H; now apply elem_of_nil in H].
  destruct (find_resource props (resourceId st)) as [r |] eqn:Hfind.
  - rewrite bool_decide_eq_true_2 by eauto. rewrite andb_false_r.
    intros H. apply list_elem_of_singleton in H. subst event.
    do 4 (split; [reflexivity |]). intros _ rid. simpl.
    destruct (resourceId st =? "")%string; [discriminate |].
    intros [= <-]. split; [reflexivity |].
    apply find_resource_some in Hfind. now exists r.
  - rewrite bool_decide_eq_false_2 by (intros [? [=]]). rewrite andb_true_r.
    destruct (String.eqb_spec (resourceId st) "") as [Hempty | Hne].
    + rewrite andb_false_r. simpl.
      intros H. apply list_elem_of_singleton in H. subst event.
      do 4 (split; [reflexivity |]). intros _ rid. simpl.
      rewrite Hempty. discriminate.
    + rewrite andb_true_r. destruct action; simpl.
      * intros H. apply list_elem_of_singleton in H. subst event.
        do 4 (split; [reflexivity |]). congruence.
      * intros H. now apply elem_of_nil in H.
      * intros H. now apply elem_of_nil in H.
Qed.

(** The instance and a subnet are chosen and the move is confirmed. *)
Definition confirming_state : State :=
  {| selectedResource := "ec2"; resourceId := "ec2-web-1";
     targetSubnet := "subnet-private-1"; activeAction := Some Move |}.

Lemma handleAction_emits_valid_witness :
  handleAction sample_props confirming_state Move
  = (cleared confirming_state, [edit_event confirming_state Move])
  /\ exists r, r ∈ availableResources sample_props /\ id r = "ec2-web-1".
Proof.
  destruct (handleAction_emits_valid sample_props confirming_state Move
              (edit_event confirming_state Move))
    as (Hrun & _ & _ & _ & Hid).
  - apply list_elem_of_In. left. reflexivity.
  - split; [exact Hrun |].
    destruct (Hid ltac:(discriminate) "ec2-web-1" eq_refl) as (_ & Hr).
    exact Hr.
Defined.

(** X6.  A remove or a move confirmed while no resource is selected still
    hands an event to [onEdit]; [editDiagram] refuses it before any
    request is sent. *)
Theorem confirm_without_selection (props : Props) (st : State)
  (action : Action) (url modelId : value)
  (net : Request -> result Response) (now : string) :
  is_active st action = true ->
  action <> Add ->
  resourceId st = "" ->
  exists event,
    snd (handleAction props st action) = [event]
    /\ run net now (editDiagram url modelId event)
       = ([], Throw (Error "Resource ID is required for remove/move operations")).
Proof.
  intros Hactive Haction Hempty.
  exists (edit_event st action). split.
  - rewrite handleAction_confirm_emits; [reflexivity | exact Hactive |].
    right. now left.
  - rewrite editDiagram_unfold, backendRequest_lacking_id; [reflexivity | | ].
    + simpl. now destruct action.
    + simpl. now rewrite Hempty.
Qed.

Definition unselected_state : State :=
  {| selectedResource := "ec2"; resourceId := "";
     targetSubnet := "subnet-public-1"; activeAction := Some Remove |}.

Lemma confirm_without_selection_witness :
  exists event,
    snd (handleAction sample_props unselected_state Remove) = [event]
    /\ run (answer_with sample_refusal) ""
           (editDiagram VUndefined (VStr "m1") event)
       = ([], Throw (Error "Resource ID is required for remove/move operations")).
Proof.
  apply (confirm_without_selection sample_props unselected_state Remove
           VUndefined (VStr "m1") (answer_with sample_refusal) "").
  - reflexivity.
  - discriminate.
  - reflexivity.
Defined.

(** X7.  A move confirmed for a resource of the diagram is sent with the
    identifier selected and the subnet selected; the resource type of the
    request is the type selected for an add, whatever the resource
    moved. *)
Theorem confirm_move_request (props : Props) (st : State) (r : Resource)
  (modelId : value) :
  is_active st Move = true ->
  find_resource props (resourceId st) = Some r ->
  resourceId st <> "" ->
  targetSubnet st <> "" ->
  exists event request,
    snd (handleAction props st Move) = [event]
    /\ backendRequest modelId event = Ok request
    /\ request !! "operation" = Some (VStr "move_resource")
    /\ request !! "resource_id" = Some (VStr (resourceId st))
    /\ request !! "target_subnet_id" = Some (VStr (targetSubnet st))
    /\ request !! "resource_type" = Some (VStr (selectedResource st))
    /\ request !! "properties" = None.
Proof.
  intros Hactive Hfind Hid Htarget.
  apply String.eqb_neq in Hid, Htarget.
  destruct (backendRequest_ok modelId (edit_event st Move))
    as (request & Hreq).
  - intros _. simpl. rewrite Hid. simpl. exact Hid.
  - intros _. simpl. exact Htarget.
  - exists (edit_event st Move), request. split.
    + rewrite handleAction_confirm_emits; [reflexivity | exact Hactive |].
      right. right. now exists r.
    + split; [exact Hreq |].
      destruct (backendRequest_shape _ _ _ Hreq)
        as (_ & Hop & Hty & Hrid & Htg & Hpr).
      simpl in *. rewrite Hid in Hrid. repeat split; assumption.
Qed.

Lemma confirm_move_request_witness :
  exists event request,
    snd (handleAction sample_props confirming_state Move) = [event]
    /\ backendRequest (VStr "m1") event = Ok request
    /\ request !! "operation" = Some (VStr "move_resource")
    /\ request !! "resource_id" = Some (VStr "ec2-web-1")
    /\ request !! "target_subnet_id" = Some (VStr "subnet-private-1")
    /\ request !! "resource_type" = Some (VStr "ec2")
    /\ request !! "properties" = None.
Proof.
  apply (confirm_move_request sample_props confirming_state
           {| id := "ec2-web-1"; type := "EC2";
              label := "web-server-1 ec2-web-1 t2.micro" |} (VStr "m1")).
  - reflexivity.
  - reflexivity.
  - discriminate.
  - discriminate.
Defined.

End ControlsFacts.

(* ===================================================================== *)
(** * More facts about the API client *)
(* ===================================================================== *)

Module ClientFacts.
Import Js Api JsFacts ApiFacts.

(** ** The mapping of the warnings *)

Lemma map_warning_ok_iff (w : value) :
  (exists w', map_warning w = Ok w') <-> w <> VNull /\ w <> VUndefined.
Proof.
  unfold map_warning. io_simpl. split.
  - intros [w' H]. destruct w; simpl in H; try discriminate;
      split; discriminate.
  - intros [Hn Hu]. destruct w; try congruence; simpl; eexists; reflexivity.
Qed.

Lemma result_mapM_ok_iff {A B : Type} (f : A -> result B) (l : list A) :
  (exists l', result_mapM f l = Ok l') <-> Forall (fun x => exists y, f x = Ok y) l.
Proof.
  induction l as [|x l IH]; simpl.
  - split; [constructor | now exists []].
  - split.
    + intros [l' H].
      destruct (f x) as [y |] eqn:Ex; simpl in H; [| discriminate].
      destruct (result_mapM f l) as [ys |] eqn:El; simpl in H; [| discriminate].
      constructor; [now exists y | apply IH; now exists ys].
    + intros H. inversion H as [| ? ? [y Hy] Hl]; subst.
      apply IH in Hl as [ys Hys]. rewrite Hy, Hys. simpl. now eexists.
Qed.

(** X8.  The mapping of the warnings keeps their number, their order and
    every property but the severity: the warning delivered at a position
    has, under each other name, what the warning of the backend at that
    position has. *)
Theorem mappedWarnings_keeps_fields (data : value) (l : list value) :
  mappedWarnings data = Ok l ->
  exists sw bw,
    get data "security_warnings" = Ok sw
    /\ or_else sw (VArr []) = VArr bw
    /\ length l = length bw
    /\ forall i fields w',
         bw !! i = Some (VObj fields) ->
         l !! i = Some w' ->
         forall k, k <> "severity" -> get w' k = get (VObj fields) k.
Proof.
  intros H.
  destruct (mappedWarnings_delivered _ _ H) as (sw & bw & Hsw & Hbw & Hall).
  exists sw, bw. repeat split; try assumption.
  - symmetry. exact (Forall2_length _ _ _ Hall).
  - intros i fields w' Hi Hi' k Hk.
    destruct (Forall2_lookup_l _ _ _ _ _ Hall Hi) as (w'' & Hw'' & Hd).
    rewrite Hi' in Hw''. injection Hw'' as <-.
    destruct Hd as (sev & _ & ->). simpl.
    now rewrite lookup_insert_ne by congruence.
Qed.

Lemma mappedWarnings_keeps_fields_witness :
  exists sw bw,
    get sample_generated "security_warnings" = Ok sw
    /\ or_else sw (VArr []) = VArr bw
    /\ length (warnings sample_delivered) = length bw
    /\ forall i fields w',
         bw !! i = Some (VObj fields) ->
         warnings sample_delivered !! i = Some w' ->
         forall k, k <> "severity" -> get w' k = get (VObj fields) k.
Proof.
  apply (mappedWarnings_keeps_fields sample_generated
           (warnings sample_delivered)).
  vm_compute. reflexivity.
Defined.

Lemma mappedWarnings_falsy (data sw : value) :
  get data "security_warnings" = Ok sw ->
  truthy sw = false ->
  mappedWarnings data = Ok [].
Proof.
  intros Hsw Ht. unfold mappedWarnings. io_simpl. rewrite Hsw. simpl.
  unfold or_else. now rewrite Ht.
Qed.

(** X9.  The warnings are mapped exactly when [security_warnings] is
    missing or falsy, which gives no warning, or is an array none of
    whose items is [null]; in every other case the mapping throws. *)
Theorem mappedWarnings_succeeds (data sw : value) :
  get data "security_warnings" = Ok sw ->
  ((exists l, mappedWarnings data = Ok l)
   <-> truthy sw = false
       \/ exists items,
            sw = VArr items
            /\ Forall (fun w => w <> VNull /\ w <> VUndefined) items)
  /\ (truthy sw = false -> mappedWarnings data = Ok []).
Proof.
  intros Hsw. unfold mappedWarnings. io_simpl. rewrite Hsw. simpl.
  unfold or_else. destruct (truthy sw) eqn:Ht.
  - split; [| discriminate]. split.
    + intros [l H]. right.
      destruct sw as [| | | | | items |]; simpl in H; try discriminate.
      exists items. split; [reflexivity |].
      assert (exists l', result_mapM map_warning items = Ok l') as Hex
          by now exists l.
      apply result_mapM_ok_iff in Hex.
      eapply Forall_impl; [exact Hex |]. intros w. apply map_warning_ok_iff.
    + intros [[=] | (items & -> & Hall)]. simpl.
      apply result_mapM_ok_iff.
      eapply Forall_impl; [exact Hall |]. intros w. apply map_warning_ok_iff.
  - split; [| reflexivity]. split; [now left | now exists []].
Qed.

Lemma mappedWarnings_succeeds_witness :
  ~ (exists l,
        mappedWarnings (VObj {[ "security_warnings" := VArr [VNull] ]}) = Ok l)
  /\ mappedWarnings (VObj ∅) = Ok [].
Proof.
  assert (get (VObj {[ "security_warnings" := VArr [VNull] ]})
            "security_warnings" = Ok (VArr [VNull])) as Hnull by reflexivity.
  assert (get (VObj ∅) "security_warnings" = Ok VUndefined) as Hnone
      by reflexivity.
  split.
  - intros H.
    apply (proj1 (mappedWarnings_succeeds _ _ Hnull)) in H.
    destruct H as [[=] | (items & [= <-] & Hall)].
    inversion Hall as [| ? ? [Hn _] _]. congruence.
  - apply (proj2 (mappedWarnings_succeeds _ _ Hnone)). reflexivity.
Defined.

(** ** [generateFromText] and [editTerraform] *)

Definition text_request (url : value) (text : string) : Request :=
  {| Js.url := endpoint url "/text"; method := "POST";
     headers := json_headers;
     body := Some (VObj {[ "text" := VStr text ]}) |}.

Definition terraform_request (url modelId originalCode modifiedCode : value)
  : Request :=
  {| Js.url := endpoint url "/edit/terraform"; method := "POST";
     headers := json_headers;
     body := Some (VObj {[ "current_model_id" := modelId;
                           "original_terraform" := originalCode;
                           "modified_terraform" := modifiedCode ]}) |}.

(** Both functions send one request, whatever the answer. *)
Lemma generateFromText_sent url text net now :
  fst (run net now (generateFromText url text)) = [text_request url text].
Proof.
  unfold generateFromText. io_simpl. cbn [run]. fold (text_request url text).
  destruct (net (text_request url text)) as [response | e]; io_simpl;
    [| reflexivity].
  destruct (ok response); simpl; [| reflexivity].
  unfold await_json.
  destruct (json response) as [data |]; io_simpl; [| reflexivity].
  destruct data; io_simpl; try reflexivity;
    match goal with
    | |- context [mappedWarnings ?d] =>
        destruct (mappedWarnings d) as [l |]; reflexivity
    end.
Qed.

Lemma editTerraform_sent url modelId originalCode modifiedCode net now :
  fst (run net now (editTerraform url modelId originalCode modifiedCode))
  = [terraform_request url modelId originalCode modifiedCode].
Proof.
  unfold editTerraform. io_simpl. cbn [run].
  fold (terraform_request url modelId originalCode modifiedCode).
  destruct (net (terraform_request url modelId originalCode modifiedCode))
    as [response | e]; io_simpl; [| reflexivity].
  destruct (ok response); simpl; [| reflexivity].
  unfold await_json.
  destruct (json response) as [data |]; io_simpl; [| reflexivity].
  destruct data; try reflexivity;
    match goal with
    | |- context [mappedWarnings ?d] =>
        destruct (mappedWarnings d) as [l |]; reflexivity
    end.
Qed.

Lemma generateFromText_outcome url text net now :
  snd (run net now (generateFromText url text))
  = match net (text_request url text) with
    | Throw e => Throw e
    | Ok response =>
        if ok response then
          match json response with
          | None => Throw SyntaxError
          | Some data =>
              mapped ← mappedWarnings data;
              mermaid_diagram ← get data "mermaid_diagram";
              terraform_code ← get data "terraform_code";
              data_corrections ← get data "corrections";
              model_id ← get data "model_id";
              model_summary ← get data "model_summary";
              Ok {| diagram := mermaid_diagram;
                    terraform := terraform_code;
                    warnings := mapped;
                    corrections := or_else data_corrections (VArr []);
                    modelId := model_id;
                    model := model_summary |}
          end
        else Throw (Error ("Failed to generate infrastructure: "
                           +:+ statusText response))
    end.
Proof.
  unfold generateFromText. io_simpl. cbn [run]. fold (text_request url text).
  destruct (net (text_request url text)) as [response | e]; io_simpl;
    [| reflexivity].
  destruct (ok response); simpl; [| reflexivity].
  unfold await_json.
  destruct (json response) as [data |]; io_simpl; [| reflexivity].
  destruct data; io_simpl; try reflexivity;
    match goal with
    | |- context [mappedWarnings ?d] =>
        destruct (mappedWarnings d) as [l |]; reflexivity
    end.
Qed.

Lemma editTerraform_outcome url modelId originalCode modifiedCode net now :
  snd (run net now (editTerraform url modelId originalCode modifiedCode))
  = match net (terraform_request url modelId originalCode modifiedCode) with
    | Throw e => Throw e
    | Ok response =>
        if ok response then
          match json response with
          | None => Throw SyntaxError
          | Some data =>
              mapped ← mappedWarnings data;
              mermaid_diagram ← get data "mermaid_diagram";
              terraform_code ← get data "terraform_code";
              model_id ← get data "model_id";
              model_summary ← get data "model_summary";
              Ok {| diagram := or_else mermaid_diagram (VStr "");
                    terraform := or_else terraform_code (VStr "");
                    warnings := mapped;
                    corrections := VUndefined;
                    modelId := model_id;
                    model := model_summary |}
          end
        else Throw (Error ("Failed to update Terraform: "
                           +:+ statusText response +:+ " - "
                           +:+ text response))
    end.
Proof.
  unfold editTerraform. io_simpl. cbn [run].
  fold (terraform_request url modelId originalCode modifiedCode).
  destruct (net (terraform_request url modelId originalCode modifiedCode))
    as [response | e]; io_simpl; [| reflexivity].
  destruct (ok response); simpl; [| reflexivity].
  unfold await_json.
  destruct (json response) as [data |]; io_simpl; [| reflexivity].
  destruct data; try reflexivity;
    match goal with
    | |- context [mappedWarnings ?d] =>
        destruct (mappedWarnings d) as [l |]; reflexivity
    end.
Qed.

(** What [data.k] is for an object. *)
Definition field (fields : gmap string value) (k : string) : value :=
  default VUndefined (fields !! k).

(** X10.  [generateFromText] sends one request, the text posted to
    [/text], whatever happens next.  A request that fails is thrown on; a
    response that is not [ok] gives an error with its status text.  From
    an object without warnings it returns the diagram, the code and the
    model identifier as they are, [undefined] where they are missing, no
    warnings, and the corrections or an empty list. *)
Theorem generateFromText_outcomes
  (url : value) (text : string)
  (net : Request -> result Response) (now : string) :
  fst (run net now (generateFromText url text)) = [text_request url text]
  /\ (forall e,
        net (text_request url text) = Throw e ->
        snd (run net now (generateFromText url text)) = Throw e)
  /\ (forall response,
        net (text_request url text) = Ok response ->
        ok response = false ->
        snd (run net now (generateFromText url text))
        = Throw (Error ("Failed to generate infrastructure: "
                        +:+ statusText response)))
  /\ (forall response fields,
        net (text_request url text) = Ok response ->
        ok response = true ->
        json response = Some (VObj fields) ->
        truthy (field fields "security_warnings") = false ->
        snd (run net now (generateFromText url text))
        = Ok {| diagram := field fields "mermaid_diagram";
                terraform := field fields "terraform_code";
                warnings := [];
                corrections := or_else (field fields "corrections") (VArr []);
                modelId := field fields "model_id";
                model := field fields "model_summary" |}).
Proof.
  split; [apply generateFromText_sent |].
  rewrite generateFromText_outcome. repeat split.
  - intros e ->. reflexivity.
  - intros response -> ->. reflexivity.
  - intros response fields -> -> -> Hsw.
    unfold mbind, result_mbind.
    rewrite (mappedWarnings_falsy (VObj fields)
               (field fields "security_warnings") eq_refl Hsw).
    reflexivity.
Qed.

(** A backend that answers with an object of two properties. *)
Definition sample_bare : value :=
  VObj {[ "mermaid_diagram" := VStr "graph TB"; "model_id" := VStr "m1" ]}.

Lemma generateFromText_outcomes_witness :
  snd (run (answer_with sample_bare) "" (generateFromText VUndefined "a VPC"))
  = Ok {| diagram := VStr "graph TB"; terraform := VUndefined;
          warnings := []; corrections := VArr [];
          modelId := VStr "m1"; model := VUndefined |}.
Proof.
  refine (proj2 (proj2 (proj2 (generateFromText_outcomes VUndefined "a VPC"
                                 (answer_with sample_bare) "")))
            _ {[ "mermaid_diagram" := VStr "graph TB";
                 "model_id" := VStr "m1" ]} eq_refl eq_refl eq_refl _).
  reflexivity.
Defined.

Lemma editTerraform_bare url modelId originalCode modifiedCode net now
  response fields :
  net (terraform_request url modelId originalCode modifiedCode)
  = Ok response ->
  ok response = true ->
  json response = Some (VObj fields) ->
  truthy (field fields "security_warnings") = false ->
  snd (run net now (editTerraform url modelId originalCode modifiedCode))
  = Ok {| diagram := or_else (field fields "mermaid_diagram") (VStr "");
          terraform := or_else (field fields "terraform_code") (VStr "");
          warnings := [];
          corrections := VUndefined;
          modelId := field fields "model_id";
          model := field fields "model_summary" |}.
Proof.
  intros Hnet Hok Hjson Hsw.
  rewrite editTerraform_outcome, Hnet, Hok, Hjson.
  unfold mbind, result_mbind.
  rewrite (mappedWarnings_falsy (VObj fields)
             (field fields "security_warnings") eq_refl Hsw).
  reflexivity.
Qed.

(** X11.  [editTerraform] sends one request, which carries the model
    identifier, the original code and the modified code.  A response that
    is not [ok] gives an error with its status and its text.  The function
    does not read [success]: from any object without warnings it returns
    the diagram and the code, or empty texts where they are missing, so a
    refusal of the backend that comes with an [ok] response is returned as
    an empty diagram and not thrown. *)
Theorem editTerraform_outcomes
  (url modelId originalCode modifiedCode : value)
  (net : Request -> result Response) (now : string) :
  fst (run net now (editTerraform url modelId originalCode modifiedCode))
  = [terraform_request url modelId originalCode modifiedCode]
  /\ (forall response,
        net (terraform_request url modelId originalCode modifiedCode)
        = Ok response ->
        ok response = false ->
        snd (run net now (editTerraform url modelId originalCode modifiedCode))
        = Throw (Error ("Failed to update Terraform: "
                        +:+ statusText response +:+ " - "
                        +:+ text response)))
  /\ (forall response fields,
        net (terraform_request url modelId originalCode modifiedCode)
        = Ok response ->
        ok response = true ->
        json response = Some (VObj fields) ->
        truthy (field fields "security_warnings") = false ->
        snd (run net now (editTerraform url modelId originalCode modifiedCode))
        = Ok {| diagram := or_else (field fields "mermaid_diagram") (VStr "");
                terraform := or_else (field fields "terraform_code") (VStr "");
                warnings := [];
                corrections := VUndefined;
                modelId := field fields "model_id";
                model := field fields "model_summary" |}).
Proof.
  split; [apply editTerraform_sent |]. split.
  - rewrite editTerraform_outcome. intros response -> ->. reflexivity.
  - intros response fields. apply editTerraform_bare.
Qed.

Lemma editTerraform_outcomes_witness :
  snd (run (answer_with sample_refusal) ""
         (editTerraform VUndefined (VStr "m1") (VStr "old") (VStr "new")))
  = Ok {| diagram := VStr ""; terraform := VStr ""; warnings := [];
          corrections := VUndefined; modelId := VUndefined;
          model := VUndefined |}.
Proof.
  refine (proj2 (proj2 (editTerraform_outcomes VUndefined (VStr "m1")
                          (VStr "old") (VStr "new")
                          (answer_with sample_refusal) ""))
            _ {[ "success" := VBool false;
                 "error" := VStr "Resource ec2-web-1 not found" ]}
            eq_refl eq_refl eq_refl _).
  reflexivity.
Defined.

End ClientFacts.

(* ===================================================================== *)
(** * More facts about the page *)
(* ===================================================================== *)

Module PageFacts.
Import Js JsFacts Api Index IndexFacts IndexHandlers ApiFacts ClientFacts.

(** The setters that a handler calls around a request: the status goes to
    [syncing], then the response is taken over and the status goes to
    [synced], or the status goes to [error]. *)
Definition around (render : State) (options : Options)
  (outcome : result InfrastructureResponse) : list Update :=
  match outcome with
  | Ok response =>
      [setSyncStatus syncing]
      ++ updateInfrastructure render response options
      ++ [setSyncStatus synced]
  | Throw _ => [setSyncStatus syncing; setSyncStatus error]
  end.

Lemma handleDiagramEdit_run url render event net now :
  truthy (currentModelId render) = true ->
  isHealthy render = true ->
  run net now (handleDiagramEdit url render event)
  = (fst (run net now (editDiagram url (currentModelId render) event)),
     Ok (around render no_options
           (snd (run net now (editDiagram url (currentModelId render) event))))).
Proof.
  intros Hid Hhealthy. unfold handleDiagramEdit.
  rewrite Hid, Hhealthy. simpl.
  rewrite (run_try_catch _
             (fun _ => [setSyncStatus syncing; setSyncStatus error])).
  rewrite !run_bind.
  destruct (run net now (editDiagram url (currentModelId render) event))
    as [sent [response | e]]; simpl; [| reflexivity].
  now rewrite !app_nil_r.
Qed.

Lemma handleApplyTerraform_run url render net now :
  truthy (currentModelId render) = true ->
  isHealthy render = true ->
  touch (originalTerraform render) = Ok tt ->
  touch (terraform render) = Ok tt ->
  run net now (handleApplyTerraform url render)
  = (fst (run net now
            (editTerraform url (currentModelId render)
               (originalTerraform render) (terraform render))),
     Ok (around render skipping
           (snd (run net now
                   (editTerraform url (currentModelId render)
                      (originalTerraform render) (terraform render)))))).
Proof.
  intros Hid Hhealthy Horiginal Hcode. unfold handleApplyTerraform.
  rewrite Hid, Hhealthy, Horiginal, Hcode.
  cbn [negb mbind io_mbind io_bind lift].
  rewrite (run_try_catch _
             (fun _ => [setSyncStatus syncing; setSyncStatus error])).
  rewrite !run_bind.
  destruct (run net now
              (editTerraform url (currentModelId render)
                 (originalTerraform render) (terraform render)))
    as [sent [response | e]]; simpl; [| reflexivity].
  now rewrite !app_nil_r.
Qed.

(** The state but for its status. *)
Definition content (st : State)
  : value * value * value * value * list value * value * bool :=
  (diagram st, terraform st, originalTerraform st, currentModelId st,
   warnings st, corrections st, isHealthy st).

Lemma commit_failure (st : State) :
  content (commit st [setSyncStatus syncing; setSyncStatus error]) = content st
  /\ syncStatus (commit st [setSyncStatus syncing; setSyncStatus error]) = error.
Proof. split; reflexivity. Qed.

(** X12.  Without a model identifier, an edit of the diagram and the
    application of the code send nothing and call no setter.  With one but
    with the backend unhealthy, they send nothing either, and only the
    status is set, to [syncing] and back to [synced]. *)
Theorem handlers_guarded (url : value) (render : State)
  (event : DiagramEditEvent) (net : Request -> result Response) (now : string) :
  (truthy (currentModelId render) = false ->
   run net now (handleDiagramEdit url render event) = ([], Ok [])
   /\ run net now (handleApplyTerraform url render) = ([], Ok []))
  /\ (truthy (currentModelId render) = true ->
      isHealthy render = false ->
      run net now (handleDiagramEdit url render event)
      = ([], Ok [setSyncStatus syncing; setSyncStatus synced])
      /\ run net now (handleApplyTerraform url render)
         = ([], Ok [setSyncStatus syncing; setSyncStatus synced])).
Proof.
  unfold handleDiagramEdit, handleApplyTerraform. split.
  - intros ->. split; reflexivity.
  - intros -> ->. split; reflexivity.
Qed.

(** A page that has generated nothing yet, and one whose backend has
    stopped answering. *)
Definition fresh_state : State :=
  {| diagram := VStr ""; terraform := VStr "";
     originalTerraform := VStr ""; currentModelId := VNull;
     warnings := []; corrections := VArr [];
     isHealthy := true; syncStatus := synced |}.

Definition unhealthy_state : State :=
  {| diagram := VStr "graph TB"; terraform := VStr "provider";
     originalTerraform := VStr "provider"; currentModelId := VStr "m1";
     warnings := []; corrections := VArr [];
     isHealthy := false; syncStatus := synced |}.

Definition add_ec2 : DiagramEditEvent :=
  {| action := Add; resourceType := "ec2"; Api.resourceId := None;
     Api.targetSubnet := None; properties := None |}.

Lemma handlers_guarded_witness :
  run (fun _ => Throw TypeError) "" (handleDiagramEdit VUndefined fresh_state add_ec2)
  = ([], Ok [])
  /\ run (fun _ => Throw TypeError) ""
       (handleApplyTerraform VUndefined unhealthy_state)
     = ([], Ok [setSyncStatus syncing; setSyncStatus synced]).
Proof.
  split.
  - exact (proj1 (proj1 (handlers_guarded VUndefined fresh_state add_ec2
                           (fun _ => Throw TypeError) "") eq_refl)).
  - exact (proj2 (proj2 (handlers_guarded VUndefined unhealthy_state add_ec2
                           (fun _ => Throw TypeError) "") eq_refl eq_refl)).
Defined.

(** X13.  An edit of the diagram that fails, at the validation of the
    event, on the network or at the backend, changes nothing of the page
    but the status, which is [error]; the requests sent are those of
    [editDiagram]. *)
Theorem handleDiagramEdit_failure_atomic (url : value) (render st : State)
  (event : DiagramEditEvent) (net : Request -> result Response) (now : string)
  (e : exn) :
  truthy (currentModelId render) = true ->
  isHealthy render = true ->
  snd (run net now (editDiagram url (currentModelId render) event)) = Throw e ->
  exists updates,
    run net now (handleDiagramEdit url render event)
    = (fst (run net now (editDiagram url (currentModelId render) event)),
       Ok updates)
    /\ content (commit st updates) = content st
    /\ syncStatus (commit st updates) = error.
Proof.
  intros Hid Hhealthy Hfail.
  rewrite (handleDiagramEdit_run _ _ _ _ _ Hid Hhealthy), Hfail.
  eexists. split; [reflexivity |]. apply commit_failure.
Qed.

(** X14.  An edit of the diagram that succeeds replaces the diagram, the
    warnings and the code of the editor by those of the response, and the
    baseline by the same code: what the user had typed and not applied is
    lost, and the baseline equals the text of the editor. *)
Theorem handleDiagramEdit_success (url : value) (render st : State)
  (event : DiagramEditEvent) (net : Request -> result Response) (now : string)
  (response : InfrastructureResponse) :
  truthy (currentModelId render) = true ->
  isHealthy render = true ->
  snd (run net now (editDiagram url (currentModelId render) event))
  = Ok response ->
  exists updates,
    snd (run net now (handleDiagramEdit url render event)) = Ok updates
    /\ diagram (commit st updates) = Api.diagram response
    /\ terraform (commit st updates) = Api.terraform response
    /\ originalTerraform (commit st updates) = Api.terraform response
    /\ warnings (commit st updates) = Api.warnings response
    /\ currentModelId (commit st updates)
       = (if truthy (modelId response) then modelId response
          else currentModelId st)
    /\ syncStatus (commit st updates) = synced.
Proof.
  intros Hid Hhealthy Hok.
  rewrite (handleDiagramEdit_run _ _ _ _ _ Hid Hhealthy), Hok.
  eexists. split; [reflexivity |].
  unfold around, updateInfrastructure, commit. simpl.
  destruct (truthy (modelId response)); repeat split.
Qed.

(** A page on which a model was generated. *)
Definition sample_state : State :=
  {| diagram := VStr "graph TB"; terraform := VStr "provider";
     originalTerraform := VStr "provider"; currentModelId := VStr "m1";
     warnings := []; corrections := VArr [];
     isHealthy := true; syncStatus := synced |}.

(** A backend that carries out the operation. *)
Definition sample_success : value :=
  VObj {[ "success" := VBool true;
          "mermaid_diagram" := VStr "graph LR";
          "terraform_code" := VStr "resource";
          "model_id" := VStr "m1" ]}.

Lemma handleDiagramEdit_failure_atomic_witness :
  exists updates,
    run (answer_with sample_refusal) ""
        (handleDiagramEdit VUndefined sample_state sample_remove_without_id)
    = ([], Ok updates)
    /\ content (commit sample_state updates) = content sample_state
    /\ syncStatus (commit sample_state updates) = error.
Proof.
  apply (handleDiagramEdit_failure_atomic VUndefined sample_state sample_state
           sample_remove_without_id (answer_with sample_refusal) ""
           (Error "Resource ID is required for remove/move operations")).
  - reflexivity.
  - reflexivity.
  - reflexivity.
Defined.

Lemma handleDiagramEdit_success_witness :
  exists updates,
    snd (run (answer_with sample_success) ""
           (handleDiagramEdit VUndefined sample_state sample_move))
    = Ok updates
    /\ diagram (commit sample_state updates) = VStr "graph LR"
    /\ terraform (commit sample_state updates) = VStr "resource"
    /\ originalTerraform (commit sample_state updates) = VStr "resource"
    /\ warnings (commit sample_state updates) = []
    /\ currentModelId (commit sample_state updates) = VStr "m1"
    /\ syncStatus (commit sample_state updates) = synced.
Proof.
  apply (handleDiagramEdit_success VUndefined sample_state sample_state
           sample_move (answer_with sample_success) ""
           {| Api.diagram := VStr "graph LR";
              Api.terraform := VStr "resource";
              Api.warnings := []; Api.corrections := VUndefined;
              modelId := VStr "m1"; model := VUndefined |}).
  - reflexivity.
  - reflexivity.
  - vm_compute. reflexivity.
Defined.

(** X15.  The application of the code sends one request: it carries the
    model identifier, the baseline as the original code and the text of
    the editor as the modified code. *)
Theorem handleApplyTerraform_sends (url : value) (render : State)
  (net : Request -> result Response) (now : string) :
  truthy (currentModelId render) = true ->
  isHealthy render = true ->
  touch (originalTerraform render) = Ok tt ->
  touch (terraform render) = Ok tt ->
  fst (run net now (handleApplyTerraform url render))
  = [terraform_request url (currentModelId render)
       (originalTerraform render) (terraform render)].
Proof.
  intros Hid Hhealthy Horiginal Hcode.
  rewrite (handleApplyTerraform_run _ _ _ _ Hid Hhealthy Horiginal Hcode).
  apply editTerraform_sent.
Qed.

Lemma handleApplyTerraform_sends_witness :
  fst (run (answer_with sample_success) ""
         (handleApplyTerraform VUndefined sample_state))
  = [terraform_request VUndefined (VStr "m1") (VStr "provider")
       (VStr "provider")].
Proof.
  apply (handleApplyTerraform_sends VUndefined sample_state
           (answer_with sample_success) ""); reflexivity.
Defined.

(** The state once the user has typed [newCode] in the editor. *)
Definition then_typed (st : State) (newCode : string) : State :=
  commit st (handleTerraformChange st newCode).

(** X16.  After a response that has a model identifier but no code, the
    baseline is [undefined]: code that the user types then cannot be
    applied, the application ends in the status [error] before any request
    is sent. *)
Theorem apply_after_codeless_response (url : value) (render st : State)
  (response : InfrastructureResponse) (newCode : string)
  (net : Request -> result Response) (now : string) :
  Api.terraform response = VUndefined ->
  truthy (modelId response) = true ->
  isHealthy st = true ->
  originalTerraform
    (then_typed (after_update st render response no_options) newCode)
  = VUndefined
  /\ terraform
       (then_typed (after_update st render response no_options) newCode)
     = VStr newCode
  /\ run net now
       (handleApplyTerraform url
          (then_typed (after_update st render response no_options) newCode))
     = ([], Ok [setSyncStatus syncing; setSyncStatus error]).
Proof.
  intros Hcode Hid Hhealthy.
  unfold then_typed, after_update.
  unfold updateInfrastructure, handleTerraformChange, commit.
  rewrite Hcode, Hid. simpl.
  destruct (negb (is_str VUndefined newCode)); simpl;
    (split; [reflexivity | split; [reflexivity |]]);
    unfold handleApplyTerraform; simpl; rewrite Hid, Hhealthy; reflexivity.
Qed.

Definition codeless_response : InfrastructureResponse :=
  {| Api.diagram := VStr "graph TB"; Api.terraform := VUndefined;
     Api.warnings := []; Api.corrections := VArr [];
     modelId := VStr "m1"; model := VUndefined |}.

Lemma apply_after_codeless_response_witness :
  run (answer_with sample_success) ""
      (handleApplyTerraform VUndefined
         (then_typed
            (after_update sample_state sample_state codeless_response
               no_options)
            "resource"))
  = ([], Ok [setSyncStatus syncing; setSyncStatus error]).
Proof.
  refine (proj2 (proj2 (apply_after_codeless_response VUndefined sample_state
                          sample_state codeless_response
                          "resource" (answer_with sample_success) ""
                          eq_refl eq_refl eq_refl))).
Defined.

(** X17.  When the backend answers the application of the code with an
    [ok] response whose object has no diagram, as a refusal has, the
    diagram of the page becomes the empty text and the status [synced];
    the text of the editor stays and becomes the baseline. *)
Theorem apply_answered_without_diagram (url : value) (render st : State)
  (net : Request -> result Response) (now : string)
  (response : Response) (fields : gmap string value) :
  truthy (currentModelId render) = true ->
  isHealthy render = true ->
  touch (originalTerraform render) = Ok tt ->
  touch (terraform render) = Ok tt ->
  net (terraform_request url (currentModelId render)
         (originalTerraform render) (terraform render)) = Ok response ->
  ok response = true ->
  json response = Some (VObj fields) ->
  truthy (field fields "security_warnings") = false ->
  truthy (field fields "mermaid_diagram") = false ->
  exists updates,
    snd (run net now (handleApplyTerraform url render)) = Ok updates
    /\ diagram (commit st updates) = VStr ""
    /\ warnings (commit st updates) = []
    /\ terraform (commit st updates) = terraform st
    /\ originalTerraform (commit st updates) = terraform render
    /\ syncStatus (commit st updates) = synced.
Proof.
  intros Hid Hhealthy Horiginal Hcode Hnet Hok Hjson Hsw Hdiagram.
  rewrite (handleApplyTerraform_run _ _ _ _ Hid Hhealthy Horiginal Hcode).
  rewrite (editTerraform_bare _ _ _ _ _ _ response fields Hnet Hok Hjson Hsw).
  eexists. split; [reflexivity |].
  unfold around, skipping, updateInfrastructure, commit, or_else. simpl.
  rewrite Hdiagram.
  destruct (truthy (field fields "model_id")); repeat split.
Qed.

Lemma apply_answered_without_diagram_witness :
  exists updates,
    snd (run (answer_with sample_refusal) ""
           (handleApplyTerraform VUndefined sample_state)) = Ok updates
    /\ diagram (commit sample_state updates) = VStr ""
    /\ warnings (commit sample_state updates) = []
    /\ terraform (commit sample_state updates) = VStr "provider"
    /\ originalTerraform (commit sample_state updates) = VStr "provider"
    /\ syncStatus (commit sample_state updates) = synced.
Proof.
  apply (apply_answered_without_diagram VUndefined sample_state sample_state
           (answer_with sample_refusal) ""
           {| ok := true; statusText := "OK"; text := "";
              json := Some sample_refusal |}
           {[ "success" := VBool false;
              "error" := VStr "Resource ec2-web-1 not found" ]});
    reflexivity.
Defined.

(** X18.  What the user types in the editor is what the next application
    sends as the modified code, and typing leaves the baseline alone: the
    original code sent is the baseline of before. *)
Theorem type_then_apply (url : value) (render : State) (newCode : string)
  (net : Request -> result Response) (now : string) :
  truthy (currentModelId render) = true ->
  isHealthy render = true ->
  touch (originalTerraform render) = Ok tt ->
  fst (run net now (handleApplyTerraform url (then_typed render newCode)))
  = [terraform_request url (currentModelId render)
       (originalTerraform render) (VStr newCode)].
Proof.
  intros Hid Hhealthy Horiginal. unfold then_typed.
  assert (commit render (handleTerraformChange render newCode)
          = {| diagram := diagram render; terraform := VStr newCode;
               originalTerraform := originalTerraform render;
               currentModelId := currentModelId render;
               warnings := warnings render;
               corrections := corrections render;
               isHealthy := isHealthy render;
               syncStatus :=
                 if negb (is_str (terraform render) newCode) then syncing
                 else syncStatus render |}) as ->.
  { unfold handleTerraformChange, commit. simpl.
    destruct (negb (is_str (terraform render) newCode)); reflexivity. }
  rewrite handleApplyTerraform_run by (try assumption; reflexivity).
  apply editTerraform_sent.
Qed.

Lemma type_then_apply_witness :
  fst (run (answer_with sample_success) ""
         (handleApplyTerraform VUndefined
            (then_typed sample_state "resource")))
  = [terraform_request VUndefined (VStr "m1") (VStr "provider")
       (VStr "resource")].
Proof.
  apply (type_then_apply VUndefined sample_state "resource"
           (answer_with sample_success) ""); reflexivity.
Defined.

(** ** Generation and the health check *)

(** The setters that [handleGenerate] calls for the outcome of its
    request. *)
Definition generated (render : Page)
  (outcome : result InfrastructureResponse) : list PageUpdate :=
  [setIsLoading true; set (setSyncStatus syncing)]
  ++ match outcome with
     | Ok response =>
         map set (updateInfrastructure (state render) response no_options)
         ++ [set (setSyncStatus synced)]
     | Throw _ => [set (setSyncStatus error)]
     end
  ++ [setIsLoading false].

Definition demonstration : list PageUpdate :=
  [setIsLoading true; set (setSyncStatus syncing);
   set (setDiagram (VStr DEMO_DIAGRAM));
   set (setTerraform (VStr DEMO_TERRAFORM));
   set (setWarnings DEMO_WARNINGS);
   set (setSyncStatus synced); setIsLoading false].

Lemma handleGenerate_run url render net now :
  run net now (handleGenerate url render)
  = if blank (inputText render) then ([], Ok [])
    else if isHealthy (state render) then
      (fst (run net now (generateFromText url (inputText render))),
       Ok (generated render
             (snd (run net now (generateFromText url (inputText render))))))
    else ([], Ok demonstration).
Proof.
  unfold handleGenerate.
  destruct (blank (inputText render)); [reflexivity |].
  rewrite run_bind.
  rewrite (run_try_catch _
             (fun _ => [setIsLoading true; set (setSyncStatus syncing);
                        set (setSyncStatus error)])).
  destruct (isHealthy (state render)).
  - rewrite !run_bind.
    destruct (run net now (generateFromText url (inputText render)))
      as [sent [response | e]]; simpl; [| now rewrite app_nil_r].
    rewrite !app_nil_r. unfold generated. simpl.
    now rewrite <- !app_assoc.
  - reflexivity.
Qed.

Lemma commit_page_app p us vs :
  commit_page p (us ++ vs) = commit_page (commit_page p us) vs.
Proof. unfold commit_page. apply foldl_app. Qed.

Lemma commit_page_set p us :
  commit_page p (map set us)
  = {| state := commit (state p) us; inputText := inputText p;
       isLoading := isLoading p |}.
Proof.
  unfold commit_page, commit. revert p.
  induction us as [|u us IH]; intros p; [now destruct p |].
  simpl. now rewrite IH.
Qed.

(** X19.  [handleGenerate] does nothing for a text that is blank.  For
    any other text it returns, whatever the backend does, and leaves the
    page not loading and with a status that is [synced] or [error], never
    [syncing]. *)
Theorem handleGenerate_settles (url : value) (render p : Page)
  (net : Request -> result Response) (now : string) :
  (blank (inputText render) = true ->
   run net now (handleGenerate url render) = ([], Ok []))
  /\ (blank (inputText render) = false ->
      exists updates,
        snd (run net now (handleGenerate url render)) = Ok updates
        /\ isLoading (commit_page p updates) = false
        /\ (syncStatus (state (commit_page p updates)) = synced
            \/ syncStatus (state (commit_page p updates)) = error)).
Proof.
  rewrite handleGenerate_run. split; intros ->; [reflexivity |].
  destruct (isHealthy (state render)).
  - eexists. split; [reflexivity |]. unfold generated.
    destruct (snd (run net now (generateFromText url (inputText render))))
      as [response | e].
    + rewrite !commit_page_app, commit_page_set. simpl.
      split; [reflexivity | now left].
    + simpl. split; [reflexivity | now right].
  - eexists. split; [reflexivity |]. simpl. split; [reflexivity | now left].
Qed.

Definition sample_page : Page :=
  {| state := sample_state; inputText := "a VPC with a database";
     isLoading := false |}.

Lemma handleGenerate_settles_witness :
  run (answer_with sample_generated) ""
      (handleGenerate VUndefined
         {| state := sample_state; inputText := "   "; isLoading := false |})
  = ([], Ok [])
  /\ exists updates,
       snd (run (answer_with sample_generated) ""
              (handleGenerate VUndefined sample_page)) = Ok updates
       /\ isLoading (commit_page sample_page updates) = false
       /\ (syncStatus (state (commit_page sample_page updates)) = synced
           \/ syncStatus (state (commit_page sample_page updates)) = error).
Proof.
  split.
  - apply (handleGenerate_settles VUndefined
             {| state := sample_state; inputText := "   ";
                isLoading := false |}
             sample_page (answer_with sample_generated) "").
    reflexivity.
  - apply (handleGenerate_settles VUndefined sample_page sample_page
             (answer_with sample_generated) "").
    reflexivity.
Defined.

(** X20.  With the backend unhealthy, a generation sends nothing and
    shows the demonstration: its diagram, code and warnings are set, the
    model identifier and the baseline are left as they are.  On a page
    that had no model, edits of the diagram and applications of the code
    are then still ignored. *)
Theorem handleGenerate_demonstration (url : value) (render p : Page)
  (event : DiagramEditEvent) (net : Request -> result Response) (now : string) :
  blank (inputText render) = false ->
  isHealthy (state render) = false ->
  exists updates,
    run net now (handleGenerate url render) = ([], Ok updates)
    /\ diagram (state (commit_page p updates)) = VStr DEMO_DIAGRAM
    /\ terraform (state (commit_page p updates)) = VStr DEMO_TERRAFORM
    /\ warnings (state (commit_page p updates)) = DEMO_WARNINGS
    /\ currentModelId (state (commit_page p updates))
       = currentModelId (state p)
    /\ originalTerraform (state (commit_page p updates))
       = originalTerraform (state p)
    /\ (truthy (currentModelId (state p)) = false ->
        run net now
          (handleDiagramEdit url (state (commit_page p updates)) event)
        = ([], Ok [])
        /\ run net now
             (handleApplyTerraform url (state (commit_page p updates)))
           = ([], Ok [])).
Proof.
  intros Hblank Hhealthy. rewrite handleGenerate_run, Hblank, Hhealthy.
  eexists. split; [reflexivity |]. simpl.
  do 5 (split; [reflexivity |]).
  intros Hid. unfold handleDiagramEdit, handleApplyTerraform. simpl.
  rewrite Hid. split; reflexivity.
Qed.

Definition offline_page : Page :=
  {| state :=
       {| diagram := VStr ""; terraform := VStr "";
          originalTerraform := VStr ""; currentModelId := VNull;
          warnings := []; corrections := VArr [];
          isHealthy := false; syncStatus := synced |};
     inputText := "a VPC"; isLoading := false |}.

Lemma handleGenerate_demonstration_witness :
  exists updates,
    run (answer_with sample_generated) ""
        (handleGenerate VUndefined offline_page) = ([], Ok updates)
    /\ diagram (state (commit_page offline_page updates)) = VStr DEMO_DIAGRAM
    /\ run (answer_with sample_generated) ""
         (handleDiagramEdit VUndefined
            (state (commit_page offline_page updates)) sample_move)
       = ([], Ok []).
Proof.
  destruct (handleGenerate_demonstration VUndefined offline_page offline_page
              sample_move (answer_with sample_generated) "" eq_refl eq_refl)
    as (updates & Hrun & Hdiagram & _ & _ & _ & _ & Hedits).
  exists updates. split; [exact Hrun |]. split; [exact Hdiagram |].
  exact (proj1 (Hedits eq_refl)).
Defined.

(** X21.  With the backend healthy, a generation sends one request with
    the text as it was typed, white space around it included.  A response
    replaces the diagram, the warnings, the code of the editor and the
    baseline; a failure changes nothing of the page but the status. *)
Theorem handleGenerate_healthy (url : value) (render p : Page)
  (net : Request -> result Response) (now : string) :
  blank (inputText render) = false ->
  isHealthy (state render) = true ->
  exists updates,
    run net now (handleGenerate url render)
    = ([text_request url (inputText render)], Ok updates)
    /\ (forall response,
          snd (run net now (generateFromText url (inputText render)))
          = Ok response ->
          diagram (state (commit_page p updates)) = Api.diagram response
          /\ terraform (state (commit_page p updates)) = Api.terraform response
          /\ originalTerraform (state (commit_page p updates))
             = Api.terraform response
          /\ warnings (state (commit_page p updates)) = Api.warnings response
          /\ syncStatus (state (commit_page p updates)) = synced)
    /\ (forall e,
          snd (run net now (generateFromText url (inputText render)))
          = Throw e ->
          content (state (commit_page p updates)) = content (state p)
          /\ inputText (commit_page p updates) = inputText p
          /\ syncStatus (state (commit_page p updates)) = error).
Proof.
  intros Hblank Hhealthy.
  rewrite handleGenerate_run, Hblank, Hhealthy, generateFromText_sent.
  eexists. split; [reflexivity |]. unfold generated. split.
  - intros response ->.
    rewrite !commit_page_app, commit_page_set. simpl.
    unfold updateInfrastructure, commit. simpl.
    destruct (truthy (modelId response)); repeat split.
  - intros e ->. simpl. repeat split.
Qed.

Lemma handleGenerate_healthy_witness :
  exists updates,
    run (answer_with sample_bare) ""
        (handleGenerate VUndefined
           {| state := sample_state; inputText := " a VPC ";
              isLoading := false |})
    = ([text_request VUndefined " a VPC "], Ok updates).
Proof.
  destruct (handleGenerate_healthy VUndefined
              {| state := sample_state; inputText := " a VPC ";
                 isLoading := false |}
              sample_page (answer_with sample_bare) "" eq_refl eq_refl)
    as (updates & Hrun & _).
  now exists updates.
Defined.

(** The request of the health check is answered, by a response that is
    [ok]. *)
Definition answered_ok (url : value) (net : Request -> result Response) : bool :=
  match net (health_request url) with
  | Ok response => ok response
  | Throw _ => false
  end.

(** X22.  The health check sets the page healthy exactly when its
    request is answered by a response that is [ok]; while the page is not
    healthy, the controls and the button that applies the code are
    disabled. *)
Theorem checkBackendHealth_sets (url : value) (p : Page)
  (net : Request -> result Response) (now : string) :
  run net now (checkBackendHealth url)
  = ([health_request url], Ok [setIsHealthy (answered_ok url net)])
  /\ isHealthy (state (commit_page p [setIsHealthy (answered_ok url net)]))
     = answered_ok url net
  /\ content (state (commit_page p [setIsHealthy (answered_ok url net)]))
     = (diagram (state p), terraform (state p), originalTerraform (state p),
        currentModelId (state p), warnings (state p), corrections (state p),
        answered_ok url net)
  /\ (answered_ok url net = false ->
      edits_disabled (commit_page p [setIsHealthy (answered_ok url net)])
      = true).
Proof.
  unfold answered_ok. split.
  - unfold checkBackendHealth. rewrite run_bind.
    unfold checkHealth. io_simpl. cbn [try_catch run].
    fold (health_request url).
    destruct (net (health_request url)) as [response | e];
      [| reflexivity].
    cbn [lift io_bind try_catch]. now destruct (ok response).
  - repeat split. intros H. unfold edits_disabled. simpl. now rewrite H.
Qed.

Lemma checkBackendHealth_sets_witness :
  edits_disabled
    (commit_page sample_page
       [setIsHealthy (answered_ok VUndefined (fun _ => Throw TypeError))])
  = true.
Proof.
  exact (proj2 (proj2 (proj2 (checkBackendHealth_sets VUndefined sample_page
                                (fun _ => Throw TypeError) "")))
           eq_refl).
Defined.

End PageFacts.

(* ------------------------------------------------------------------ *)
(** * The hook over its life: addresses, messages in and out           *)
(* ------------------------------------------------------------------ *)

Module WebSocketHookFacts.
Import Text Js Api UseWebSocket WebSocketHook ApiFacts.

(** What the socket is handed for a message: its text, unless it cannot be
    written. *)
Definition handed (JSON_stringify : value -> result string) (msg : value)
  : list string :=
  match JSON_stringify msg with
  | Ok payload => [payload]
  | Throw _ => []
  end.








Lemma send_message_ready (JSON_stringify : value -> result string)
  (st : HookState) (socket : WebSocket) (type : string) (data : value) :
  ws st = Some socket -> isConnected st = true -> readyState socket = OPEN ->
  fst (send_message JSON_stringify st type data)
  = handed JSON_stringify (message type data).
Proof.
  intros Hws Hconnected Hopen. unfold send_message, sendMessage.
  now rewrite Hws, Hconnected, Hopen.
Qed.

Lemma send_message_idle (JSON_stringify : value -> result string)
  (st : HookState) (type : string) (data : value) :
  isConnected st = false ->
  send_message JSON_stringify st type data = ([], Ok tt).
Proof.
  intros Hconnected. unfold send_message, sendMessage. rewrite Hconnected.
  now destruct (ws st).
Qed.

(** X24.  While the hook is connected and its socket is open, each of the
    four senders hands the socket one message of its own type:
    [sendEditEvent] the event under [event], [sendPositionUpdate] the
    identifier under [resource_id] and the position under [position],
    [sendCursorUpdate] the position under [position], and [requestSync]
    nothing but the type.  What the event or the position holds (a [type]
    of its own, say) does not change the type of the message. *)
Theorem senders_messages (JSON_stringify : value -> result string)
  (st : HookState) (socket : WebSocket)
  (event position : value) (resourceId : string) :
  ws st = Some socket -> isConnected st = true -> readyState socket = OPEN ->
  fst (sendEditEvent JSON_stringify st event)
  = handed JSON_stringify
      (VObj {[ "type" := VStr "edit_event"; "event" := event ]})
  /\ fst (sendPositionUpdate JSON_stringify st resourceId position)
     = handed JSON_stringify
         (VObj {[ "type" := VStr "position_update";
                  "resource_id" := VStr resourceId;
                  "position" := position ]})
  /\ fst (sendCursorUpdate JSON_stringify st position)
     = handed JSON_stringify
         (VObj {[ "type" := VStr "cursor_update"; "position" := position ]})
  /\ fst (requestSync JSON_stringify st)
     = handed JSON_stringify (VObj {[ "type" := VStr "sync_request" ]}).
Proof.
  intros Hws Hconnected Hopen.
  unfold sendEditEvent, sendPositionUpdate, sendCursorUpdate, requestSync.
  rewrite !(send_message_ready _ _ socket) by assumption.
  unfold message, spread.
  repeat split; do 2 f_equal; apply map_eq; intros k;
    rewrite !lookup_union;
    repeat (rewrite ?lookup_insert; case_decide; subst; try reflexivity;
            try congruence);
    rewrite ?lookup_empty; reflexivity.
Qed.

(** A socket that is open and takes every text, and a serializer that
    writes every message as the same text. *)
Definition ready_socket : WebSocket :=
  {| readyState := OPEN; send := fun _ => Ok tt |}.

Definition always (payload : string) : value -> result string :=
  fun _ => Ok payload.

Lemma senders_messages_witness :
  fst (sendEditEvent (always "text") (onopen ready_socket initial)
         (VObj {[ "type" := VStr "remove" ]}))
  = ["text"].
Proof.
  exact (proj1 (senders_messages (always "text") (onopen ready_socket initial)
                  ready_socket (VObj {[ "type" := VStr "remove" ]}) VNull ""
                  eq_refl eq_refl eq_refl)).
Defined.

Lemma get_only_type (t k : string) :
  get (VObj {[ "type" := VStr t ]}) k
  = Ok (if (k =? "type")%string then VStr t else VUndefined).
Proof.
  unfold get. f_equal.
  destruct (k =? "type")%string eqn:Hk.
  - apply String.eqb_eq in Hk. subst k. now rewrite lookup_singleton_eq.
  - apply String.eqb_neq in Hk. now rewrite lookup_singleton_ne.
Qed.

Lemma onmessage_calls {Handler : Type} (handlers : gmap string Handler)
  (message : value) (t : string) (st : HookState) :
  get message "type" = Ok (VStr t) ->
  snd (onmessage handlers (Some message) st)
  = match handlers !! t with
    | Some handler => [(handler, message)]
    | None => []
    end.
Proof.
  intros Htype. unfold onmessage. rewrite Htype. reflexivity.
Qed.

(** X25.  A message of type [t] that arrives after [registerHandler(t, h)]
    is given to [h], once, and to no handler registered for [t] before.
    The function that [registerHandler] returned removes whatever handler
    [t] has by then, also one that was registered later; after it a message
    of type [t] is given to no handler.  Registering or removing a handler
    for another type changes nothing for messages of type [t]. *)
Theorem registerHandler_dispatch {Handler : Type}
  (handlers : gmap string Handler) (t : string) (h : Handler)
  (message : value) (st : HookState) :
  get message "type" = Ok (VStr t) ->
  snd (onmessage (registerHandler t h handlers) (Some message) st)
  = [(h, message)]
  /\ snd (onmessage (unregister t (registerHandler t h handlers))
            (Some message) st) = []
  /\ (forall later,
        snd (onmessage
               (unregister t
                  (registerHandler t later (registerHandler t h handlers)))
               (Some message) st) = [])
  /\ (forall other h',
        other <> t ->
        snd (onmessage (registerHandler other h' handlers) (Some message) st)
        = snd (onmessage handlers (Some message) st)
        /\ snd (onmessage (unregister other handlers) (Some message) st)
           = snd (onmessage handlers (Some message) st)).
Proof.
  intros Htype. unfold registerHandler, unregister.
  split; [| split; [| split]].
  - rewrite (onmessage_calls _ _ t) by exact Htype.
    now rewrite lookup_insert_eq.
  - rewrite (onmessage_calls _ _ t) by exact Htype.
    now rewrite lookup_delete_eq.
  - intros later. rewrite (onmessage_calls _ _ t) by exact Htype.
    now rewrite lookup_delete_eq.
  - intros other h' Hother.
    rewrite !(onmessage_calls _ _ t) by exact Htype.
    rewrite lookup_insert_ne, lookup_delete_ne by exact Hother.
    split; reflexivity.
Qed.

Lemma registerHandler_dispatch_witness :
  snd (onmessage (registerHandler "edit_event" 2 {[ "edit_event" := 1 ]})
         (Some (VObj {[ "type" := VStr "edit_event" ]})) initial)
  = [(2, VObj {[ "type" := VStr "edit_event" ]})]
  /\ snd (onmessage
            (unregister "edit_event"
               (registerHandler "edit_event" 3
                  (registerHandler "edit_event" 2 {[ "edit_event" := 1 ]})))
            (Some (VObj {[ "type" := VStr "edit_event" ]})) initial)
     = [].
Proof.
  destruct (registerHandler_dispatch ({[ "edit_event" := 1 ]} : gmap string nat)
              "edit_event" 2 (VObj {[ "type" := VStr "edit_event" ]}) initial
              (get_only_type "edit_event" "type"))
    as (Hcalled & _ & Hstale & _).
  split; [exact Hcalled | exact (Hstale 3)].
Defined.

(** X26.  A message that arrives never changes the socket or the
    connected flag of the hook.  A text that is no JSON changes nothing at
    all and reaches no handler.  Every parsed message becomes
    [lastMessage]; the list of active users changes only with a message of
    type [connected], to the [active_users] of the message or, when that is
    missing or falsy, to the empty list. *)
Theorem onmessage_state {Handler : Type} (handlers : gmap string Handler)
  (parsed : option value) (st : HookState) :
  ws (fst (onmessage handlers parsed st)) = ws st
  /\ isConnected (fst (onmessage handlers parsed st)) = isConnected st
  /\ lastMessage (fst (onmessage handlers parsed st))
     = default (lastMessage st) parsed
  /\ (parsed = None -> onmessage handlers parsed st = (st, []))
  /\ ((forall message,
         parsed = Some message -> get message "type" <> Ok (VStr "connected")) ->
      activeUsers (fst (onmessage handlers parsed st)) = activeUsers st)
  /\ (forall message users,
        parsed = Some message ->
        get message "type" = Ok (VStr "connected") ->
        get message "active_users" = Ok users ->
        activeUsers (fst (onmessage handlers parsed st))
        = or_else users (VArr [])).
Proof.
  unfold onmessage.
  destruct parsed as [message |];
    [| repeat split; intros; try reflexivity; discriminate].
  destruct (get message "type") as [type |] eqn:Htype;
    [| repeat split; intros; try reflexivity; try discriminate;
       congruence].
  destruct (is_str type "connected") eqn:Hconnected.
  - apply is_str_spec in Hconnected. subst type.
    repeat split; try reflexivity; try discriminate.
    + intros H. now destruct (H message eq_refl).
    + intros message' users [= <-] _ Husers. cbn [fst activeUsers].
      now rewrite Husers.
  - repeat split; try reflexivity; try discriminate.
    intros message' users [= <-] Hconnected' _.
    rewrite Htype in Hconnected'. injection Hconnected' as ->.
    discriminate.
Qed.

Lemma onmessage_state_witness :
  activeUsers
    (fst (onmessage (∅ : gmap string nat)
            (Some (VObj {[ "type" := VStr "connected" ]}))
            (onopen ready_socket initial)))
  = VArr []
  /\ onmessage (∅ : gmap string nat) None (onopen ready_socket initial)
     = (onopen ready_socket initial, []).
Proof.
  destruct (onmessage_state (∅ : gmap string nat)
              (Some (VObj {[ "type" := VStr "connected" ]}))
              (onopen ready_socket initial))
    as (_ & _ & _ & _ & _ & Husers).
  destruct (onmessage_state (∅ : gmap string nat) None
              (onopen ready_socket initial))
    as (_ & _ & _ & Hnone & _).
  split.
  - exact (Husers (VObj {[ "type" := VStr "connected" ]}) VUndefined
             eq_refl (get_only_type "connected" "type")
             (get_only_type "connected" "active_users")).
  - exact (Hnone eq_refl).
Defined.

(** X27.  The effect opens no socket without a model identifier.  With
    one, a base address that starts with [https://] gives a [wss://]
    address and one that starts with [http://] a [ws://] address, made of
    the rest of the base address, [/ws/] and the identifier; the user is
    added as [?user_id=] only when there is a user that is not the empty
    text. *)
Theorem connect_url_scheme (base host modelId : string)
  (userId : option string) :
  modelId <> "" ->
  connect_url ("https://" +:+ host) (Some modelId) userId
  = Some ("wss://" +:+ host +:+ "/ws/" +:+ modelId
          +:+ match userId with
              | Some user =>
                  if (user =? "")%string then "" else "?user_id=" +:+ user
              | None => ""
              end)
  /\ connect_url ("http://" +:+ host) (Some modelId) userId
     = Some ("ws://" +:+ host +:+ "/ws/" +:+ modelId
             +:+ match userId with
                 | Some user =>
                     if (user =? "")%string then "" else "?user_id=" +:+ user
                 | None => ""
                 end)
  /\ connect_url base None userId = None
  /\ connect_url base (Some "") userId = None.
Proof.
  intros Hid. unfold connect_url, lacking.
  apply String.eqb_neq in Hid. rewrite Hid.
  assert (Hnil : forall s, startsWith s "" = true) by now intros [].
  repeat split; unfold wsUrl, strip_scheme, lacking; simpl;
    rewrite ?Hnil; simpl;
    destruct userId as [user |]; simpl;
    try destruct (user =? "")%string; reflexivity.
Qed.

Lemma connect_url_scheme_witness :
  connect_url "http://localhost:8000" (Some "m1") (Some "ann")
  = Some "ws://localhost:8000/ws/m1?user_id=ann".
Proof.
  refine (proj1 (proj2 (connect_url_scheme "" "localhost:8000" "m1"
                          (Some "ann") _))).
  discriminate.
Defined.

(** X28.  [sendMessage] hands the socket nothing before the socket has
    opened, after any close event and after the cleanup of the effect,
    whatever state the socket itself is in; once [onopen] has run for an
    open socket it hands it the one text of the message. *)
Theorem sends_between_open_and_close
  (JSON_stringify : value -> result string) (st : HookState)
  (newWs : WebSocket) (type : string) (data : value) :
  send_message JSON_stringify initial type data = ([], Ok tt)
  /\ send_message JSON_stringify (created newWs initial) type data
     = ([], Ok tt)
  /\ send_message JSON_stringify (created newWs (cleanup st)) type data
     = ([], Ok tt)
  /\ send_message JSON_stringify (onclose st) type data = ([], Ok tt)
  /\ send_message JSON_stringify (cleanup st) type data = ([], Ok tt)
  /\ (readyState newWs = OPEN ->
      fst (send_message JSON_stringify (onopen newWs st) type data)
      = handed JSON_stringify (message type data)).
Proof.
  repeat split; try (now apply send_message_idle).
  intros Hopen. now apply (send_message_ready _ _ newWs).
Qed.

Lemma sends_between_open_and_close_witness :
  fst (send_message (always "text") (onopen ready_socket initial)
         "sync_request" (VObj ∅))
  = ["text"]
  /\ send_message (always "text") (onclose (onopen ready_socket initial))
       "sync_request" (VObj ∅)
     = ([], Ok tt).
Proof.
  destruct (sends_between_open_and_close (always "text")
              (onopen ready_socket initial) ready_socket
              "sync_request" (VObj ∅))
    as (_ & _ & _ & Hclosed & _ & _).
  destruct (sends_between_open_and_close (always "text") initial ready_socket
              "sync_request" (VObj ∅))
    as (_ & _ & _ & _ & _ & Hopen).
  split; [exact (Hopen eq_refl) | exact Hclosed].
Defined.

End WebSocketHookFacts.
